(** * Verification of [torch/utils/_benchmark/utils/timer.py]

    A shallow embedding of the [Timer] class and of the measurement
    methodology it implements: the single fixed-repetition timing
    ([timeit]), the block-size estimation loop ([_estimate_block_size]),
    the sampling loop ([_threaded_measurement_loop]) and the strategies
    built from them.

    Durations are Python floats, i.e. IEEE 754 binary64 numbers: they are
    modelled by Rocq's primitive floats, whose operations are the binary64
    ones.  Repeat counts are Python integers, modelled by [Z].  The timed
    callable, the hooks and the callbacks are stateful and may raise: they
    are state transformers over an arbitrary external state, and every call
    the code makes to them is recorded in an event log. *)

From Stdlib Require Import ZArith List Bool Lia Floats.
From stdpp Require Import gmap strings.
Import ListNotations.

Local Open Scope Z_scope.

(** ** Python values of the kinds the module computes with *)

(** Exceptions the code raises itself, or that Python raises on its behalf. *)
Inductive exn : Type :=
| ValueError (msg : string)
| NotImplementedError (msg : string)
| ZeroDivisionError
| OverflowError
| ExternalError (tag : string).

(** Result of running a piece of code: a value, a raised exception, or
    [Timeout] when the fuel given to a [while] loop ran out with the loop
    still running. *)
Inductive outcome (A : Type) : Type :=
| Ret (a : A)
| Raise (e : exn)
| Timeout.
Arguments Ret {A} a.
Arguments Raise {A} e.
Arguments Timeout {A}.

Definition is_ret {A} (r : outcome A) : bool :=
  match r with Ret _ => true | _ => false end.

Module PyFloat.

(** Literals of the source, as the binary64 values Python reads them as. *)
Definition zero : float := 0x0p+0%float.                      (* 0.0 *)
Definition tenth_milli : float := 0x1.a36e2eb1c432dp-14%float. (* 1e-4 *)
Definition thousand : float := 0x1.f4p+9%float.                (* 1000 *)
Definition c0_01 : float := 0x1.47ae147ae147bp-7%float.        (* 0.01 *)
Definition c0_05 : float := 0x1.999999999999ap-5%float.        (* 0.05 *)
Definition c0_2 : float := 0x1.999999999999ap-3%float.         (* 0.2 *)

(** [x < y], [x <= y], [x > y], [x >= y]: false as soon as one side is NaN. *)
Definition lt (x y : float) : bool := PrimFloat.ltb x y.
Definition le (x y : float) : bool := PrimFloat.leb x y.
Definition gt (x y : float) : bool := PrimFloat.ltb y x.
Definition ge (x y : float) : bool := PrimFloat.leb y x.
Definition eq (x y : float) : bool := PrimFloat.eqb x y.

(** [bool(x)]: a float is falsy exactly when it compares equal to zero. *)
Definition truthy (x : float) : bool := negb (eq x zero).

(** [x == x], which only NaN fails. *)
Definition is_number (x : float) : bool := eq x x.

(** [x + y] on floats. *)
Definition add (x y : float) : float := PrimFloat.add x y.

(** [x / y] on Python floats: a zero divisor raises. *)
Definition truediv (x y : float) : outcome float :=
  if eq y zero then Raise ZeroDivisionError else Ret (PrimFloat.div x y).

(** [float(n)] for a Python integer, as done implicitly by [x / n]:
    round to nearest even, [OverflowError] when out of range. *)
Definition of_int (n : Z) : outcome float :=
  let f := SF2Prim (binary_normalize prec emax n 0 false) in
  if PrimFloat.is_infinity f then Raise OverflowError else Ret f.

(** [x / n] for a float [x] and an integer [n]. *)
Definition truediv_int (x : float) (n : Z) : outcome float :=
  match of_int n with
  | Ret y => truediv x y
  | Raise e => Raise e
  | Timeout => Timeout
  end.

(** [x / y] when [x] is a numpy [float64] scalar: IEEE division, a zero
    divisor gives an infinity or NaN (with a warning), not an exception. *)
Definition np_truediv (x y : float) : float := PrimFloat.div x y.

(** The running total the measurement loop keeps: [0.0 + t1 + t2 + ...],
    added left to right. *)
Definition total (times : list float) : float := fold_left add times zero.

End PyFloat.

(** ** The record the strategies build *)

(** Modelled from the spec: [common.Measurement], the statistics container
    (§3 MeasurementRecord), with the fields [_construct_measurement] passes
    and the cache-speedup annotation attached afterwards. *)
Record Measurement : Type := {
  number_per_run : Z;
  times : list float;
  num_threads : Z;
  label : option string;
  sub_label : option string;
  description : option string;
  env : option string;
  stmt : string;
  cache_speedup : option float
}.

Definition set_cache_speedup (speedup : float) (m : Measurement) : Measurement :=
  {| number_per_run := number_per_run m; times := times m;
     num_threads := num_threads m; label := label m;
     sub_label := sub_label m; description := description m;
     env := env m; stmt := stmt m; cache_speedup := Some speedup |}.

(** ** Calls into the outside world *)

(** One entry per call the code makes to a callable it does not define,
    with the arguments passed and the way the call ended. *)
Inductive event : Type :=
| EvTimer (number : Z) (r : outcome float)        (* self._timer.timeit(number) *)
| EvCacheClear (size_mb : Z) (r : outcome unit)   (* CPUCacheClear(..).clear_cpu_cache() *)
| EvPopulate (number : Z) (r : outcome float)     (* populate_timer.timeit(number) *)
| EvConfidence (number : Z) (samples : list float) (r : outcome bool)
                                                  (* measure.meets_confidence(threshold) *)
| EvTimeHook (r : outcome float)                  (* time_hook() *)
| EvStopHook (samples : list float) (r : outcome bool) (* stop_hook(times) *)
| EvCallback (number : Z) (t : float) (r : outcome unit). (* callback(number, t) *)

Declare Scope py_scope.
Delimit Scope py_scope with py.

Section Machine.

(** State of everything outside the module: clocks, caches, the
    interpreter state the timed statement runs in. *)
Context {St : Type}.

Record world : Type := {
  ext : St;
  torch_threads : Z;
  log : list event
}.

Definition M (A : Type) : Type := world -> outcome A * world.

Definition ret {A} (a : A) : M A := fun w => (Ret a, w).
Definition raise {A} (e : exn) : M A := fun w => (Raise e, w).
Definition timeout {A} : M A := fun w => (Timeout, w).

Definition bind {A B} (c : M A) (k : A -> M B) : M B := fun w =>
  match c w with
  | (Ret a, w') => k a w'
  | (Raise e, w') => (Raise e, w')
  | (Timeout, w') => (Timeout, w')
  end.

Definition lift_outcome {A} (r : outcome A) : M A := fun w => (r, w).

(** A call to an outside callable [f]: it runs on the external state and
    the call is logged with its result. *)
Definition call_ext {A} (ev : outcome A -> event)
    (f : St -> outcome A * St) : M A := fun w =>
  let (r, s') := f (ext w) in
  (r, {| ext := s'; torch_threads := torch_threads w; log := log w ++ [ev r] |}).

(** Modelled from the spec: [common.set_torch_threads], the scoped
    thread-count setting (§4.4, §5): set on entry, restored to the prior
    value on every exit path. *)
Definition set_torch_threads {A} (n : Z) (body : M A) : M A := fun w =>
  let prev := torch_threads w in
  let (r, w') := body {| ext := ext w; torch_threads := n; log := log w |} in
  (r, {| ext := ext w'; torch_threads := prev; log := log w' |}).

End Machine.

Arguments world St : clear implicits.
Arguments M St A : clear implicits.

Notation "'let*' x ':=' c 'in' k" := (bind c (fun x => k))
  (at level 10, x name, c at level 100, k at level 200) : py_scope.
Notation "'run' c 'then' k" := (bind c (fun _ => k))
  (at level 10, c at level 100, k at level 200) : py_scope.

Local Open Scope py_scope.

(** ** The Timer *)

Section Timer.

Context {St : Type}.

(** What [__init__] stores, with [_timer] standing for the behaviour of
    [self._timer.timeit]: given the repeat count, it runs the statement
    that many times on the external state and returns the elapsed time,
    or raises what the statement raises. *)
Record Timer : Type := {
  _stmt : string;
  _label : option string;
  _sub_label : option string;
  _description : option string;
  _env : option string;
  _num_threads : Z;
  _timer : Z -> St -> outcome float * St
}.

(** Collaborators of [_measure_uncached_runtime] that live outside the
    module: the cache eviction of [common.CPUCacheClear] and the
    throwaway [populate_timer]. *)
Record Collaborators : Type := {
  clear_cpu_cache : Z -> St -> outcome unit * St;
  populate_timeit : Z -> St -> outcome float * St;
  meets_confidence : Measurement -> float -> St -> outcome bool * St
}.

Definition _CACHE_SENSITIVITY_CACHE_SIZE_MB : Z := 3.

(** [self._timer.timeit(number)] *)
Definition timer_timeit (self : Timer) (number : Z) : M St float :=
  call_ext (EvTimer number) (_timer self number).

Definition _construct_measurement (self : Timer) (number_per_run : Z)
    (times : list float) : Measurement :=
  {| number_per_run := number_per_run;
     times := times;
     num_threads := _num_threads self;
     label := _label self;
     sub_label := _sub_label self;
     description := _description self;
     env := _env self;
     stmt := _stmt self;
     cache_speedup := None |}.


Definition timeit_default_number : Z := 1000000.

Definition repeat (self : Timer) (repeat number : Z) : M St Measurement :=
  raise (NotImplementedError "See `Timer.blocked_autorange.`").

Definition autorange (self : Timer)
    (callback : option (Z -> float -> M St unit)) : M St Measurement :=
  raise (NotImplementedError "See `Timer.blocked_autorange.`").

(** [max_run_time and total_time > max_run_time]: [None] and a zero
    ceiling are falsy. *)
Definition max_run_time_exceeded (max_run_time : option float)
    (total_time : float) : bool :=
  match max_run_time with
  | None => false
  | Some m => PyFloat.truthy m && PyFloat.gt total_time m
  end.

(** [if callback: callback(number, time_spent)] *)
Definition run_callback (callback : option (Z -> float -> M St unit))
    (number : Z) (time_spent : float) : M St unit :=
  match callback with
  | Some cb => cb number time_spent
  | None => ret tt
  end.

(** The [while] loop of [_threaded_measurement_loop], from a state
    [(total_time, can_stop, times)] of its three variables.  One unit of
    fuel is spent per iteration. *)
Fixpoint measurement_while (fuel : nat) (number : Z)
    (time_hook : M St float) (stop_hook : list float -> M St bool)
    (min_run_time : float) (max_run_time : option float)
    (callback : option (Z -> float -> M St unit))
    (total_time : float) (can_stop : bool) (times : list float)
    {struct fuel} : M St (list float) :=
  if PyFloat.lt total_time min_run_time || negb can_stop then
    match fuel with
    | O => timeout
    | S fuel' =>
      let* time_spent := time_hook in
      let times := times ++ [time_spent] in
      let total_time := PyFloat.add total_time time_spent in
      run run_callback callback number time_spent then
      let* can_stop := stop_hook times in
      if max_run_time_exceeded max_run_time total_time then ret times
      else measurement_while fuel' number time_hook stop_hook
             min_run_time max_run_time callback total_time can_stop times
    end
  else ret times.

Definition _threaded_measurement_loop (fuel : nat) (self : Timer)
    (number : Z) (time_hook : M St float)
    (stop_hook : list float -> M St bool) (min_run_time : float)
    (max_run_time : option float)
    (callback : option (Z -> float -> M St unit)) : M St (list float) :=
  set_torch_threads (_num_threads self)
    (measurement_while fuel number time_hook stop_hook min_run_time
       max_run_time callback PyFloat.zero false []).

(** Hooks supplied by a caller of the loop: arbitrary code acting on the
    external state.  Each call the loop makes to them is logged. *)
Definition ext_time_hook (h : St -> outcome float * St) : M St float :=
  call_ext EvTimeHook h.

(** The stop-hook is a predicate over the samples: it reads the list it
    is handed and does not change it. *)
Definition ext_stop_hook (h : list float -> St -> outcome bool * St)
    : list float -> M St bool :=
  fun samples => call_ext (EvStopHook samples) (h samples).

Definition ext_callback (cb : option (Z -> float -> St -> outcome unit * St))
    : option (Z -> float -> M St unit) :=
  match cb with
  | Some f => Some (fun number t => call_ext (EvCallback number t) (f number t))
  | None => None
  end.

(** *** Block-size estimation *)

(** [np.median] of a list of floats: NaN as soon as one entry is NaN,
    otherwise the middle element of the sorted list (the mean of the two
    middle ones for an even length is not needed here: the code always
    passes five values). *)
Fixpoint insert_sorted (x : float) (l : list float) : list float :=
  match l with
  | [] => [x]
  | y :: l' => if PyFloat.le x y then x :: l else y :: insert_sorted x l'
  end.

Definition np_median (l : list float) : float :=
  if existsb PrimFloat.is_nan l then PrimFloat.nan
  else nth (Nat.div2 (length l)) (fold_right insert_sorted [] l) PrimFloat.nan.

(** [[c for _ in range(n)]] *)
Fixpoint list_comprehension {A} (n : nat) (c : M St A) : M St (list A) :=
  match n with
  | O => ret []
  | S n' => let* x := c in
            let* xs := list_comprehension n' c in
            ret (x :: xs)
  end.

Variable collab : Collaborators.

Definition _measure_uncached_runtime (self : Timer) : M St float :=
  run call_ext (EvCacheClear _CACHE_SENSITIVITY_CACHE_SIZE_MB)
        (clear_cpu_cache collab _CACHE_SENSITIVITY_CACHE_SIZE_MB) then
  run call_ext (EvPopulate 1) (populate_timeit collab 1) then
  timer_timeit self 1.

(** [cache_speedup = uncached_time / (time_taken / number)], computed
    only [if check_cache_speedup]; both divisions are Python float
    divisions. *)
Definition update_cache_speedup (check_cache_speedup : bool)
    (uncached_time time_taken : float) (number : Z)
    (cache_speedup : float) : outcome float :=
  if check_cache_speedup then
    match PyFloat.truediv_int time_taken number with
    | Ret per_call => PyFloat.truediv uncached_time per_call
    | Raise e => Raise e
    | Timeout => Timeout
    end
  else Ret cache_speedup.

(** The first [break] test of the estimation loop. *)
Definition overhead_negligible (overhead time_taken min_run_time : float) : bool :=
  PyFloat.le (PyFloat.np_truediv overhead time_taken) PyFloat.tenth_milli
  && PyFloat.ge time_taken (PrimFloat.div min_run_time PyFloat.thousand).

(** The [while True] loop of [_estimate_block_size], from a state
    [(number, cache_speedup)]. *)
Fixpoint block_size_while (fuel : nat) (self : Timer)
    (min_run_time : float) (check_cache_speedup : bool)
    (overhead uncached_time : float)
    (number : Z) (cache_speedup : float) {struct fuel} : M St (Z * float) :=
  match fuel with
  | O => timeout
  | S fuel' =>
    let* time_taken := timer_timeit self number in
    let* cache_speedup :=
      lift_outcome (update_cache_speedup check_cache_speedup uncached_time
                      time_taken number cache_speedup) in
    if overhead_negligible overhead time_taken min_run_time
    then ret (number, cache_speedup)
    else if PyFloat.gt time_taken min_run_time
    then ret (number, cache_speedup)
    else block_size_while fuel' self min_run_time check_cache_speedup
           overhead uncached_time (number * 10) cache_speedup
  end.

Definition _estimate_block_size (fuel : nat) (self : Timer)
    (min_run_time : float) (check_cache_speedup : bool) : M St (Z * float) :=
  let* samples := list_comprehension 5 (timer_timeit self 0) in
  let overhead := np_median samples in
  let cache_speedup := PyFloat.zero in
  let* uncached_time :=
    (if check_cache_speedup then _measure_uncached_runtime self
     else ret PyFloat.zero) in
  let number := 1 in
  set_torch_threads (_num_threads self)
    (block_size_while fuel self min_run_time check_cache_speedup
       overhead uncached_time number cache_speedup).

(** *** The two sampling strategies *)

Definition blocked_autorange (fuel : nat) (self : Timer)
    (callback : option (Z -> float -> M St unit))
    (min_run_time : float) : M St Measurement :=
  let* est := _estimate_block_size fuel self min_run_time true in
  let '(number, cache_speedup) := est in
  let time_hook := timer_timeit self number in
  let stop_hook := fun _ : list float => ret true in
  let* times := _threaded_measurement_loop fuel self number time_hook
                  stop_hook min_run_time None callback in
  let measure := _construct_measurement self number times in
  ret (set_cache_speedup cache_speedup measure).

Definition adaptive_autorange (fuel : nat) (self : Timer)
    (threshold : float) (max_run_time : option float)
    (callback : option (Z -> float -> M St unit))
    (min_run_time : float) : M St Measurement :=
  let* est := _estimate_block_size fuel self PyFloat.c0_05 true in
  let '(number, cache_speedup) := est in
  let time_hook := timer_timeit self number in
  let stop_hook := fun times : list float =>
    if (3 <? length times)%nat then
      let measure := _construct_measurement self number times in
      call_ext (EvConfidence number times)
        (meets_confidence collab measure threshold)
    else ret false in
  let* times := _threaded_measurement_loop fuel self number time_hook
                  stop_hook min_run_time max_run_time callback in
  let measure := _construct_measurement self number times in
  ret (set_cache_speedup cache_speedup measure).

End Timer.

Arguments Timer St : clear implicits.
Arguments Collaborators St : clear implicits.

(** ** Construction: the environment handed to the timed statement *)

Module Globals.

(** Python objects live in a heap and are referred to by location; a
    dict maps names to values, and a value is either immediate or a
    reference to a heap object, which any holder of the reference can
    mutate in place. *)
Abbreviation loc := positive.

Inductive value : Type :=
| VInt (n : Z)
| VStr (s : string)
| VModule (name : string)
| VRef (l : loc).

Inductive object : Type :=
| ODict (d : gmap string value)
| OList (items : list value).

Abbreviation heap := (gmap loc object).

(** What [__init__] leaves in [self]: its own fields, and in [self._timer]
    the setup, the clock and the dict given to
    [timeit.Timer(stmt, setup, timer, globals)]. *)
Record timer_object : Type := {
  t_stmt : string;
  t_label : option string;
  t_sub_label : option string;
  t_description : option string;
  t_env : option string;
  t_num_threads : Z;
  _timer_setup : value;
  _timer_clock : value;
  _timer_globals : loc
}.

Definition torch : value := VModule "torch".

(** What [exec] binds [__builtins__] to: the interpreter's builtins
    namespace (the [builtins] module or its dict, as the implementation
    chooses), an object of the interpreter that is not looked into here. *)
Definition builtins : value := VModule "builtins".

(** [globals or {}]: [None] and an empty dict are falsy and give a new
    empty dict; then [dict(...)] builds a new dict with the same
    key-to-value entries. *)
Definition dict_of_globals (globals : option loc) (h : heap)
    : outcome (gmap string value) :=
  match globals with
  | None => Ret ∅
  | Some l =>
    match h !! l with
    | Some (ODict d) => Ret d
    | _ => Raise (ExternalError "TypeError")
    end
  end.

(** [d.setdefault(k, v)] *)
Definition setdefault (k : string) (v : value) (d : gmap string value)
    : gmap string value :=
  match d !! k with
  | Some _ => d
  | None => <[k := v]> d
  end.

Definition alloc (o : object) (h : heap) : loc * heap :=
  let l := fresh (dom h) in (l, <[l := o]> h).

(** Modelled from the standard library: the call
    [timeit.Timer(stmt=stmt, setup=setup, timer=timer, globals=globals)]
    that ends [__init__].  It compiles the setup and the statement, which
    fails with what the compiler raises ([compile] stands for that step:
    a [SyntaxError] for code that does not parse, a [ValueError] for a
    setup that is neither a string nor callable); it then executes its
    timing template in the dict it was given, which binds [__builtins__]
    there unless the name is bound already.  Neither the setup nor the
    statement is run. *)
Definition timeit_Timer (compile : value -> string -> outcome unit)
    (stmt : string) (setup : value) (globals : loc) (h : heap)
    : outcome unit * heap :=
  match compile setup stmt with
  | Ret _ =>
    (Ret tt,
     match h !! globals with
     | Some (ODict d) =>
       <[globals := ODict (setdefault "__builtins__" builtins d)]> h
     | _ => h
     end)
  | Raise e => (Raise e, h)
  | Timeout => (Timeout, h)
  end.

Definition __init__ (compile : value -> string -> outcome unit)
    (stmt setup timer : value) (globals : option loc)
    (label sub_label description env : option string) (num_threads : Z)
    (h : heap) : outcome timer_object * heap :=
  match stmt with
  | VStr s =>
    match dict_of_globals globals h with
    | Ret d =>
      let d := setdefault "torch" torch d in
      let (l, h1) := alloc (ODict d) h in
      match timeit_Timer compile s setup l h1 with
      | (Ret _, h2) =>
        (Ret {| t_stmt := s; t_label := label; t_sub_label := sub_label;
                t_description := description; t_env := env;
                t_num_threads := num_threads; _timer_setup := setup;
                _timer_clock := timer; _timer_globals := l |}, h2)
      | (Raise e, h2) => (Raise e, h2)
      | (Timeout, h2) => (Timeout, h2)
      end
    | Raise e => (Raise e, h)
    | Timeout => (Timeout, h)
    end
  | _ => (Raise (ValueError "Currently only a `str` stmt is supported."), h)
  end.

(** Reads and in-place mutations any holder of a reference can perform. *)
Definition dict_getitem (l : loc) (k : string) (h : heap) : option value :=
  match h !! l with
  | Some (ODict d) => d !! k
  | _ => None
  end.

Definition dict_setitem (l : loc) (k : string) (v : value) (h : heap) : heap :=
  match h !! l with
  | Some (ODict d) => <[l := ODict (<[k := v]> d)]> h
  | _ => h
  end.

Definition dict_delitem (l : loc) (k : string) (h : heap) : heap :=
  match h !! l with
  | Some (ODict d) => <[l := ODict (delete k d)]> h
  | _ => h
  end.

Definition list_append (l : loc) (v : value) (h : heap) : heap :=
  match h !! l with
  | Some (OList items) => <[l := OList (items ++ [v])]> h
  | _ => h
  end.

(** The object a dict entry refers to: what [d[k]] evaluates to when the
    entry is a reference. *)
Definition deref_item (l : loc) (k : string) (h : heap) : option object :=
  match dict_getitem l k h with
  | Some (VRef r) => h !! r
  | _ => None
  end.

End Globals.

(** ** Reading the event log *)

(** The calls made to the stop-hook, in order: the samples it was handed
    and what it answered. *)
Definition stop_events (l : list event) : list (list float * outcome bool) :=
  flat_map (fun e => match e with
                     | EvStopHook samples r => [(samples, r)]
                     | _ => []
                     end) l.

Definition stop_calls (l : list event) : list (list float) :=
  map fst (stop_events l).

(** The calls made to the timed callable, in order. *)
Definition timer_events (l : list event) : list (Z * outcome float) :=
  flat_map (fun e => match e with
                     | EvTimer number r => [(number, r)]
                     | _ => []
                     end) l.

(** The non-empty prefixes of [samples] of length [from + 1] to
    [from + count]. *)
Definition prefixes (from count : nat) (samples : list float) : list (list float) :=
  map (fun k => firstn k samples) (seq (S from) count).

(** ** Auxiliary readings of the estimator *)

Section EstimatorReadings.

Context {St : Type}.

(** What [_estimate_block_size] computes before its loop: the overhead
    (median of five zero-repetition timings) and the uncached time. *)
Definition block_size_prelude (collab : Collaborators St) (self : Timer St)
    (check_cache_speedup : bool) : M St (float * float) :=
  let* samples := list_comprehension 5 (timer_timeit self 0) in
  let* uncached_time :=
    (if check_cache_speedup then _measure_uncached_runtime collab self
     else ret PyFloat.zero) in
  ret (np_median samples, uncached_time).

(** The durations the timed callable reports over [k] successive calls
    with repeat counts [number], [10 * number], [100 * number], ..., from
    external state [s]; [None] if one of the calls does not return. *)
Fixpoint loop_timings (self : Timer St) (k : nat) (number : Z) (s : St)
    : option (list float) :=
  match k with
  | O => Some []
  | S k' =>
    match _timer self number s with
    | (Ret t, s') =>
      match loop_timings self k' (number * 10) s' with
      | Some ts => Some (t :: ts)
      | None => None
      end
    | _ => None
    end
  end.

(** The world after a call [self._timer.timeit(number)] that ended with
    [r] in external state [s]. *)
Definition logged (w : world St) (number : Z) (r : outcome float) (s : St)
    : world St :=
  {| ext := s; torch_threads := torch_threads w;
     log := log w ++ [EvTimer number r] |}.

End EstimatorReadings.

(** The candidate repeat counts [1, 10, ..., 10^(k-1)]. *)
Definition candidates (k : nat) : list Z :=
  map (fun j => 10 ^ Z.of_nat j) (seq 0 k).

(** ** Concrete scenarios *)

Module Scenario.

(** The external state is a counter of the calls made so far. *)
Definition w0 : world nat := {| ext := 0%nat; torch_threads := 4; log := [] |}.

(** A timed callable whose [i]-th call, with repeat count [n], takes
    [f i n] seconds. *)
Definition oracle_timer (f : nat -> Z -> float) : Timer nat :=
  {| _stmt := "pass"; _label := None; _sub_label := None;
     _description := None; _env := None; _num_threads := 1;
     _timer := fun n c => (Ret (f c n), S c) |}.

Definition quiet : Collaborators nat :=
  {| clear_cpu_cache := fun _ c => (Ret tt, c);
     populate_timeit := fun _ c => (Ret PyFloat.zero, c);
     meets_confidence := fun _ _ c => (Ret true, c) |}.

(** A time-hook returning a constant duration and a stop-hook with a
    constant answer. *)
Definition const_time (t : float) : nat -> outcome float * nat :=
  fun c => (Ret t, S c).
Definition const_stop (b : bool) : list float -> nat -> outcome bool * nat :=
  fun _ c => (Ret b, c).

(** Zero dispatch overhead, 10ms for any positive repeat count. *)
Definition ten_ms_timer : Timer nat :=
  oracle_timer (fun _ n => if (n =? 0)%Z then PyFloat.zero else PyFloat.c0_01).

(** A timed callable that always reports a zero duration. *)
Definition zero_timer : Timer nat := oracle_timer (fun _ _ => PyFloat.zero).

(** Too fast for the clock below ten repetitions (a zero duration, also
    for the zero-repetition overhead probes), one second from ten on. *)
Definition slow_from_ten_timer : Timer nat :=
  oracle_timer (fun _ n => if (n <? 10)%Z then PyFloat.zero else 0x1p+0%float).

(** Zero dispatch overhead; a block takes 61us up to 99 repetitions
    and 10ms from 100 on. *)
Definition step_timer : Timer nat :=
  oracle_timer (fun _ n => if (n =? 0)%Z then PyFloat.zero
                           else if (n <? 100)%Z then 0x1p-14%float
                           else PyFloat.c0_01).

(** A compiler that accepts every setup and statement, and the default
    clock. *)
Definition accepts_all : Globals.value -> string -> outcome unit :=
  fun _ _ => Ret tt.
Definition default_timer : Globals.value :=
  Globals.VModule "timeit.default_timer".
Definition pass : Globals.value := Globals.VStr "pass".

(** A caller's environment: a dict binding [x] to a list object. *)
Definition caller_globals : Globals.loc := 1%positive.
Definition shared_list : Globals.loc := 2%positive.
Definition caller_heap : Globals.heap :=
  <[caller_globals := Globals.ODict {[ "x" := Globals.VRef shared_list ]}]>
    (<[shared_list := Globals.OList [Globals.VInt 1]]> ∅).

End Scenario.

(** ** Further readings of the log and of the estimator *)

(** The exception a logged call ended with, if it raised. *)
Definition event_raised (ev : event) : option exn :=
  match ev with
  | EvTimer _ (Raise e) | EvPopulate _ (Raise e) | EvTimeHook (Raise e) => Some e
  | EvCacheClear _ (Raise e) | EvCallback _ _ (Raise e) => Some e
  | EvConfidence _ _ (Raise e) | EvStopHook _ (Raise e) => Some e
  | _ => None
  end.

(** The calls one iteration of the measurement loop makes when all of them
    return: the time-hook, then the callback if there is one, then the
    stop-hook on the samples so far. *)
Definition sample_events (has_callback : bool) (number : Z)
    (before : list float) (t : float) (b : bool) : list event :=
  EvTimeHook (Ret t)
  :: (if has_callback then [EvCallback number t (Ret tt)] else [])
  ++ [EvStopHook (before ++ [t]) (Ret b)].

(** The calls of a run of iterations taking the samples [new], each paired
    with the stop-hook's answer, after the samples [before]. *)
Fixpoint run_events (has_callback : bool) (number : Z) (before : list float)
    (new : list (float * bool)) : list event :=
  match new with
  | [] => []
  | (t, b) :: rest =>
    sample_events has_callback number before t b
    ++ run_events has_callback number (before ++ [t]) rest
  end.

(** The two [break] tests of the estimation loop together. *)
Definition block_size_exit (overhead min_run_time time_taken : float) : bool :=
  overhead_negligible overhead time_taken min_run_time
  || PyFloat.gt time_taken min_run_time.

(** The arguments of the calls made to [meets_confidence]. *)
Definition confidence_calls (l : list event) : list (list float) :=
  flat_map (fun e => match e with
                     | EvConfidence _ samples _ => [samples]
                     | _ => []
                     end) l.

(** ** More concrete scenarios *)

Module Scenario2.

(** A time-hook that reports 10ms twice and raises at its third call (the
    external state counts the calls). *)
Definition failing_time : nat -> outcome float * nat :=
  fun c => if (c <? 2)%nat then (Ret PyFloat.c0_01, S c)
           else (Raise (ExternalError "RuntimeError"), c).

(** A callback that only returns. *)
Definition quiet_callback : Z -> float -> nat -> outcome unit * nat :=
  fun _ _ c => (Ret tt, c).

(** A stop-hook that agrees once it is handed at least [n] samples. *)
Definition stop_after (n : nat) : list float -> nat -> outcome bool * nat :=
  fun samples c => (Ret (n <=? length samples)%nat, c).

(** A timed callable whose third call raises. *)
Definition failing_timer : Timer nat :=
  {| _stmt := "pass"; _label := None; _sub_label := None;
     _description := None; _env := None; _num_threads := 1;
     _timer := fun _ c => if (c <? 2)%nat then (Ret PyFloat.zero, S c)
                          else (Raise (ExternalError "RuntimeError"), c) |}.

(** A timed callable taking 10ms whatever the repeat count, zero
    included: the overhead is as large as the work. *)
Definition flat_timer : Timer nat :=
  Scenario.oracle_timer (fun _ _ => PyFloat.c0_01).

Definition one_ms : float := 0x1p-10%float.       (* 2^-10, about 1ms *)
Definition ten_seconds : float := 0x1.4p+3%float. (* 10 *)
Definition tenth : float := 0x1.999999999999ap-4%float. (* 0.1 *)

(** A compiler that rejects everything. *)
Definition rejects_all : Globals.value -> string -> outcome unit :=
  fun _ _ => Raise (ExternalError "SyntaxError").

(** The largest repeat count [timeit.Timer.timeit] accepts on a 64-bit
    build ([sys.maxsize]); beyond it the call raises [OverflowError]. *)
Definition sys_maxsize : Z := 2 ^ 63 - 1.

(** A timed callable too fast for the clock (or a Timer built with a
    clock that does not advance), with that limit: a zero duration for
    every repeat count [timeit] accepts, [OverflowError] beyond. *)
Definition too_fast_timer : Timer nat :=
  {| _stmt := "pass"; _label := None; _sub_label := None;
     _description := None; _env := None; _num_threads := 1;
     _timer := fun n c => if (n <=? sys_maxsize)%Z then (Ret PyFloat.zero, S c)
                          else (Raise OverflowError, c) |}.

End Scenario2.

(** A computation that consults [meets_confidence] only on records of more
    than three samples, whatever world it starts from and however it ends. *)
Definition consults_on_enough {St A : Type} (c : M St A) : Prop :=
  forall w : world St, exists l,
    confidence_calls (log (snd (c w))) = confidence_calls (log w) ++ l /\
    Forall (fun samples => (3 < length samples)%nat) l.

(** * Properties *)

(** ** Facts about binary64 comparison and division *)

Module FloatFacts.

Lemma SFcompare_antisym x y c :
  SFcompare x y = Some c -> SFcompare y x = Some (CompOpp c).
Proof.
  destruct x as [sx|sx| |sx mx ex], y as [sy|sy| |sy my ey]; simpl;
    try discriminate; intros [= <-];
    try (destruct sx; reflexivity); try (destruct sy; reflexivity);
    try (destruct sx, sy; reflexivity).
  destruct sx, sy; simpl; try reflexivity;
    rewrite (Z.compare_antisym ex ey);
    destruct (ex ?= ey) eqn:E; simpl; try reflexivity;
    rewrite !Pos.compare_cont_spec; simpl;
    rewrite (Pos.compare_antisym mx my);
    destruct (mx ?= my)%positive; reflexivity.
Qed.

Lemma SFcompare_refl x : x <> S754_nan -> SFcompare x x = Some Eq.
Proof.
  destruct x as [s|s| |s m e]; simpl; intros H; try congruence;
    try (destruct s; reflexivity).
  destruct s; rewrite Z.compare_refl, Pos.compare_cont_spec,
    Pos.compare_refl; reflexivity.
Qed.

Lemma SFcompare_some x y :
  x <> S754_nan -> y <> S754_nan -> exists c, SFcompare x y = Some c.
Proof. destruct x, y; simpl; intros; try congruence; eauto. Qed.

Lemma SFleb_ltb_trans x y z :
  SFleb x y = true -> SFltb y z = true -> SFltb x z = true.
Proof.
  unfold SFleb, SFltb.
  destruct x as [sx|sx| |sx mx ex], y as [sy|sy| |sy my ey],
           z as [sz|sz| |sz mz ez];
    simpl; try discriminate; try reflexivity;
    try (destruct sx; try discriminate; try reflexivity);
    try (destruct sy; try discriminate; try reflexivity);
    try (destruct sz; try discriminate; try reflexivity).
  all: repeat match goal with
       | |- context [ (?a ?= ?b)%Z ] =>
         destruct (Z.compare_spec a b); simpl;
         try discriminate; try reflexivity; try lia
       end.
  all: subst; rewrite ?Pos.compare_cont_spec; simpl.
  all: repeat match goal with
       | |- context [ (?a ?= ?b)%positive ] =>
         destruct (Pos.compare_spec a b); simpl;
         try discriminate; try reflexivity; try lia
       end.
Qed.

(** [x == x] holds exactly for the floats that are not NaN. *)
Lemma is_number_spec x :
  PyFloat.is_number x = true <-> Prim2SF x <> S754_nan.
Proof.
  unfold PyFloat.is_number, PyFloat.eq. rewrite FloatAxioms.eqb_spec. unfold SFeqb.
  split.
  - intros H E. rewrite E in H. discriminate.
  - intros H. rewrite (SFcompare_refl _ H). reflexivity.
Qed.

(** [not (x < y)] is [x >= y] for numbers. *)
Lemma lt_false_ge x y :
  PyFloat.is_number x = true -> PyFloat.is_number y = true ->
  PyFloat.lt x y = false -> PyFloat.ge x y = true.
Proof.
  rewrite !is_number_spec. unfold PyFloat.lt, PyFloat.ge.
  rewrite FloatAxioms.ltb_spec, FloatAxioms.leb_spec. unfold SFltb, SFleb. intros Hx Hy.
  destruct (SFcompare_some _ _ Hx Hy) as [c Hc].
  rewrite Hc, (SFcompare_antisym _ _ _ Hc).
  destruct c; simpl; congruence.
Qed.

Lemma lt_le x y : PyFloat.lt x y = true -> PyFloat.le x y = true.
Proof.
  unfold PyFloat.lt, PyFloat.le. rewrite FloatAxioms.ltb_spec, FloatAxioms.leb_spec.
  unfold SFltb, SFleb. destruct (SFcompare _ _) as [[]|]; congruence.
Qed.

Lemma lt_not_ge x y : PyFloat.lt x y = true -> PyFloat.ge x y = false.
Proof.
  unfold PyFloat.lt, PyFloat.ge. rewrite FloatAxioms.ltb_spec, FloatAxioms.leb_spec.
  unfold SFltb, SFleb. destruct (SFcompare (Prim2SF x) _) as [c|] eqn:E;
    try discriminate.
  rewrite (SFcompare_antisym _ _ _ E). destruct c; simpl; congruence.
Qed.

Lemma le_lt_trans x y z :
  PyFloat.le x y = true -> PyFloat.lt y z = true -> PyFloat.lt x z = true.
Proof.
  unfold PyFloat.le, PyFloat.lt. rewrite !FloatAxioms.ltb_spec, FloatAxioms.leb_spec.
  apply SFleb_ltb_trans.
Qed.

(** [x == 0.0] holds exactly for the two zeros. *)
Lemma eq_zero_spec x :
  PyFloat.eq x PyFloat.zero = true <-> exists s, Prim2SF x = S754_zero s.
Proof.
  unfold PyFloat.eq. rewrite FloatAxioms.eqb_spec.
  change (Prim2SF PyFloat.zero) with (S754_zero false).
  unfold SFeqb. split.
  - destruct (Prim2SF x) as [s|s| |s m e]; simpl; eauto;
      try discriminate; destruct s; discriminate.
  - intros [s ->]. reflexivity.
Qed.

Lemma lt_zero_r x y :
  PyFloat.eq y PyFloat.zero = true -> PyFloat.lt x y = PyFloat.lt x PyFloat.zero.
Proof.
  intros [s Hs]%eq_zero_spec. unfold PyFloat.lt. rewrite !FloatAxioms.ltb_spec, Hs.
  change (Prim2SF PyFloat.zero) with (S754_zero false).
  unfold SFltb. destruct (Prim2SF x); reflexivity.
Qed.

Lemma le_zero_r x y :
  PyFloat.eq y PyFloat.zero = true -> PyFloat.le x y = PyFloat.le x PyFloat.zero.
Proof.
  intros [s Hs]%eq_zero_spec. unfold PyFloat.le. rewrite !FloatAxioms.leb_spec, Hs.
  change (Prim2SF PyFloat.zero) with (S754_zero false).
  unfold SFleb. destruct (Prim2SF x); reflexivity.
Qed.

(** Zero divided by a non-zero number is a zero. *)
Lemma zero_div_nonzero a x :
  PyFloat.eq a PyFloat.zero = true ->
  PyFloat.is_number x = true -> PyFloat.eq x PyFloat.zero = false ->
  PyFloat.eq (PrimFloat.div a x) PyFloat.zero = true.
Proof.
  intros [s Hs]%eq_zero_spec Hx Hnz.
  apply eq_zero_spec. rewrite FloatAxioms.div_spec, Hs.
  apply is_number_spec in Hx.
  destruct (Prim2SF x) as [sx|sx| |sx mx ex] eqn:E; simpl; eauto.
  - assert (PyFloat.eq x PyFloat.zero = true) by (apply eq_zero_spec; eauto).
    congruence.
  - congruence.
Qed.

(** A zero is within the [1e-4] threshold. *)
Lemma zero_le_threshold r :
  PyFloat.eq r PyFloat.zero = true -> PyFloat.le r PyFloat.tenth_milli = true.
Proof.
  intros [s Hs]%eq_zero_spec. unfold PyFloat.le. rewrite FloatAxioms.leb_spec, Hs.
  vm_compute. reflexivity.
Qed.

End FloatFacts.

(** ** The measurement loop *)

Section MeasurementLoop.

Context {St : Type}.

Variable number : Z.
Variable time_hook : M St float.
Variable stop_hook : list float -> M St bool.
Variable callback : option (Z -> float -> M St unit).
Variable min_run_time : float.
Variable max_run_time : option float.

Let loop (fuel : nat) :=
  measurement_while fuel number time_hook stop_hook min_run_time
    max_run_time callback.

Lemma total_snoc samples t :
  PyFloat.total (samples ++ [t]) = PyFloat.add (PyFloat.total samples) t.
Proof. unfold PyFloat.total. rewrite fold_left_app. reflexivity. Qed.

(** One iteration of the loop, when every call it makes returns. *)
Lemma loop_iteration fuel total_time can_stop samples (w : world St) :
  PyFloat.lt total_time min_run_time || negb can_stop = true ->
  forall r w',
  loop (S fuel) total_time can_stop samples w = (Ret r, w') ->
  exists t u b w1 w2 w3,
    time_hook w = (Ret t, w1) /\
    run_callback callback number t w1 = (Ret u, w2) /\
    stop_hook (samples ++ [t]) w2 = (Ret b, w3) /\
    if max_run_time_exceeded max_run_time (PyFloat.add total_time t)
    then r = samples ++ [t] /\ w' = w3
    else loop fuel (PyFloat.add total_time t) b (samples ++ [t]) w3
           = (Ret r, w').
Proof.
  intros Hc r w'. unfold loop. simpl. rewrite Hc.
  unfold bind at 1.
  destruct (time_hook w) as [[t| |] w1]; try discriminate.
  unfold bind at 1.
  destruct (run_callback _ _ _ _) as [[u| |] w2] eqn:Ecb; try discriminate.
  unfold bind at 1.
  destruct (stop_hook _ w2) as [[b| |] w3] eqn:Es; try discriminate.
  intros H. exists t, u, b, w1, w2, w3. repeat split; auto.
  destruct (max_run_time_exceeded _ _);
    [injection H as <- <-; split; reflexivity | exact H].
Qed.

(** What holds when the loop returns, from any state of its variables in
    which [total_time] is the sum of the samples and a true [can_stop] is
    what the stop-hook has just answered on them. *)
Lemma loop_returns fuel :
  forall total_time can_stop samples (w : world St) r w',
  total_time = PyFloat.total samples ->
  (can_stop = true -> exists v, stop_hook samples v = (Ret true, w)) ->
  loop fuel total_time can_stop samples w = (Ret r, w') ->
  exists more,
    r = samples ++ more /\
    (PyFloat.lt total_time min_run_time || negb can_stop = true -> more <> []) /\
    ((PyFloat.lt (PyFloat.total r) min_run_time = false /\
      exists v, stop_hook r v = (Ret true, w'))
     \/ max_run_time_exceeded max_run_time (PyFloat.total r) = true).
Proof.
  induction fuel as [|fuel IH]; intros total_time can_stop samples w r w' Ht Hs.
  - unfold loop. simpl.
    destruct (PyFloat.lt total_time min_run_time || negb can_stop) eqn:Hc;
      [discriminate|].
    intros [= <- <-]. exists []. rewrite app_nil_r.
    apply orb_false_elim in Hc as [Hlt Hcs].
    apply negb_false_iff in Hcs.
    repeat split; [congruence|]. left. split; [congruence | auto].
  - destruct (PyFloat.lt total_time min_run_time || negb can_stop) eqn:Hc.
    + intros H.
      apply loop_iteration in H
        as (t & u & b & w1 & w2 & w3 & _ & _ & Hstop & H); [|exact Hc].
      destruct (max_run_time_exceeded _ _) eqn:Hmax.
      * destruct H as [-> ->]. exists [t]. repeat split; [discriminate|].
        right. rewrite total_snoc, <- Ht. exact Hmax.
      * apply IH in H as (more & -> & _ & Hexit).
        -- exists (t :: more). rewrite <- app_assoc in *. simpl in *.
           repeat split; [discriminate | exact Hexit].
        -- rewrite total_snoc, Ht. reflexivity.
        -- intros ->. eauto.
    + unfold loop. simpl. rewrite Hc. intros [= <- <-].
      exists []. rewrite app_nil_r.
      apply orb_false_elim in Hc as [Hlt Hcs].
      apply negb_false_iff in Hcs.
      repeat split; [congruence|]. left. split; [congruence | auto].
Qed.

(** The safety valve: an iteration whose calls return ends the loop as
    soon as the total exceeds a non-zero [max_run_time], whatever the
    stop-hook answered. *)
Lemma loop_valve fuel total_time can_stop samples (w w1 w2 w3 : world St)
    t u b m :
  PyFloat.lt total_time min_run_time || negb can_stop = true ->
  time_hook w = (Ret t, w1) ->
  run_callback callback number t w1 = (Ret u, w2) ->
  stop_hook (samples ++ [t]) w2 = (Ret b, w3) ->
  max_run_time = Some m -> PyFloat.truthy m = true ->
  PyFloat.gt (PyFloat.add total_time t) m = true ->
  loop (S fuel) total_time can_stop samples w = (Ret (samples ++ [t]), w3).
Proof.
  intros Hc Ht Hcb Hs Hm Htr Hgt. unfold loop. simpl. rewrite Hc.
  unfold bind at 1. rewrite Ht. unfold bind at 1. rewrite Hcb.
  unfold bind at 1. rewrite Hs.
  rewrite Hm. simpl. rewrite Htr, Hgt. reflexivity.
Qed.

End MeasurementLoop.

(** The loop run with hooks supplied from outside: what the log shows. *)
Section LoggedHooks.

Context {St : Type}.

Variable number : Z.
Variable h_time : St -> outcome float * St.
Variable h_stop : list float -> St -> outcome bool * St.
Variable h_cb : option (Z -> float -> St -> outcome unit * St).
Variable min_run_time : float.
Variable max_run_time : option float.

Let loop (fuel : nat) :=
  measurement_while fuel number (ext_time_hook h_time) (ext_stop_hook h_stop)
    min_run_time max_run_time (ext_callback h_cb).

Lemma stop_events_app l1 l2 :
  stop_events (l1 ++ l2) = stop_events l1 ++ stop_events l2.
Proof. apply flat_map_app. Qed.

Lemma time_hook_logs (w w1 : world St) r :
  ext_time_hook h_time w = (r, w1) -> log w1 = log w ++ [EvTimeHook r].
Proof.
  unfold ext_time_hook, call_ext. destruct (h_time (ext w)) as [r0 s].
  intros [= <- <-]. reflexivity.
Qed.

Lemma stop_hook_logs samples (w w1 : world St) r :
  ext_stop_hook h_stop samples w = (r, w1) ->
  log w1 = log w ++ [EvStopHook samples r].
Proof.
  unfold ext_stop_hook, call_ext. destruct (h_stop samples (ext w)) as [r0 s].
  intros [= <- <-]. reflexivity.
Qed.

(** The callback adds at most its own entry to the log. *)
Lemma callback_logs t (w w1 : world St) r :
  run_callback (ext_callback h_cb) number t w = (r, w1) ->
  log w1 = log w ++ [EvCallback number t r] \/ log w1 = log w.
Proof.
  destruct h_cb as [cb|]; simpl.
  - unfold call_ext. destruct (cb number t (ext w)) as [r0 s].
    intros [= <- <-]. left. reflexivity.
  - unfold ret. intros [= <- <-]. right. reflexivity.
Qed.

Lemma callback_keeps_stop_events t (w w1 : world St) r :
  run_callback (ext_callback h_cb) number t w = (r, w1) ->
  stop_events (log w1) = stop_events (log w).
Proof.
  intros [-> | ->]%callback_logs; [|reflexivity].
  rewrite stop_events_app. simpl. apply app_nil_r.
Qed.

(** Over a run that returns, the stop-hook is called once after each
    new sample, on all the samples taken so far. *)
Lemma loop_stop_calls fuel :
  forall total_time can_stop samples (w : world St) r w',
  loop fuel total_time can_stop samples w = (Ret r, w') ->
  exists more,
    r = samples ++ more /\
    stop_calls (log w') =
      stop_calls (log w) ++ prefixes (length samples) (length more) r.
Proof.
  induction fuel as [|fuel IH]; intros total_time can_stop samples w r w'.
  - unfold loop. simpl. destruct (_ || _); [discriminate|].
    intros [= <- <-]. exists []. rewrite app_nil_r. split; [reflexivity|].
    unfold prefixes. simpl. now rewrite app_nil_r.
  - destruct (PyFloat.lt total_time min_run_time || negb can_stop) eqn:Hc.
    + intros H.
      apply loop_iteration in H
        as (t & u & b & w1 & w2 & w3 & Ht & Hcb & Hs & H); [|exact Hc].
      apply time_hook_logs in Ht. apply callback_keeps_stop_events in Hcb.
      apply stop_hook_logs in Hs.
      assert (Hlog : stop_calls (log w3)
                     = stop_calls (log w) ++ [samples ++ [t]]).
      { unfold stop_calls. rewrite Hs, stop_events_app, Hcb, Ht,
          stop_events_app. simpl. rewrite app_nil_r, map_app. reflexivity. }
      assert (L : length (samples ++ [t]) = S (length samples))
        by (rewrite length_app; simpl; lia).
      destruct (max_run_time_exceeded _ _).
      * destruct H as [-> ->]. exists [t]. split; [reflexivity|].
        rewrite Hlog. unfold prefixes. simpl.
        rewrite <- L, firstn_all. reflexivity.
      * apply IH in H as (more & -> & Hcalls).
        assert (E : (samples ++ [t]) ++ more = samples ++ t :: more)
          by (rewrite <- app_assoc; reflexivity).
        exists (t :: more). rewrite E in *. split; [reflexivity|].
        rewrite Hcalls, Hlog, <- app_assoc. f_equal.
        unfold prefixes. simpl. rewrite L. f_equal.
        rewrite <- E, <- L. symmetry. apply take_app_length.
    + unfold loop. simpl. rewrite Hc. intros [= <- <-].
      exists []. rewrite app_nil_r. split; [reflexivity|].
      unfold prefixes. simpl. now rewrite app_nil_r.
Qed.

(** Every call the loop makes is appended to the log. *)
Lemma loop_extends_log fuel :
  forall total_time can_stop samples (w : world St),
  exists l,
    log (snd (loop fuel total_time can_stop samples w)) = log w ++ l.
Proof.
  induction fuel as [|fuel IH]; intros total_time can_stop samples w;
    unfold loop; simpl;
    destruct (PyFloat.lt total_time min_run_time || negb can_stop);
    try (exists []; simpl; now rewrite app_nil_r).
  unfold bind at 1.
  destruct (ext_time_hook h_time w) as [rt w1] eqn:Et.
  apply time_hook_logs in Et.
  destruct rt as [t| |]; try (eexists; simpl; exact Et).
  unfold bind at 1.
  destruct (run_callback _ _ _ _) as [ru w2] eqn:Ecb.
  assert (Hcb : exists l, log w2 = log w ++ l).
  { apply callback_logs in Ecb as [-> | ->]; rewrite Et, <- ?app_assoc;
      eauto. }
  destruct Hcb as [l2 Hl2].
  destruct ru as [u| |]; try (eexists; simpl; exact Hl2).
  unfold bind at 1.
  destruct (ext_stop_hook h_stop _ w2) as [rs w3] eqn:Es.
  apply stop_hook_logs in Es. rewrite Hl2, <- app_assoc in Es.
  destruct rs as [b| |]; try (eexists; simpl; exact Es).
  destruct (max_run_time_exceeded _ _); [eexists; simpl; exact Es|].
  match goal with
  | |- context [ measurement_while fuel _ _ _ _ _ _ ?tt ?cs ?ss ?ww ] =>
    destruct (IH tt cs ss ww) as [l4 Hl4]
  end.
  unfold loop in Hl4. rewrite Hl4, Es, <- app_assoc. eauto.
Qed.

(** The first thing an iteration does is call the time-hook. *)
Lemma loop_first_call fuel total_time can_stop samples (w : world St) :
  PyFloat.lt total_time min_run_time || negb can_stop = true ->
  exists res l,
    log (snd (loop (S fuel) total_time can_stop samples w))
    = log w ++ EvTimeHook res :: l.
Proof.
  intros Hc. unfold loop. simpl. rewrite Hc.
  unfold bind at 1.
  destruct (ext_time_hook h_time w) as [rt w1] eqn:Et.
  apply time_hook_logs in Et.
  destruct rt as [t| |]; try (eexists _, []; simpl; exact Et).
  unfold bind at 1.
  destruct (run_callback _ _ _ _) as [ru w2] eqn:Ecb.
  assert (Hcb : exists l, log w2 = log w ++ EvTimeHook (Ret t) :: l).
  { apply callback_logs in Ecb as [-> | ->]; rewrite Et, <- ?app_assoc;
      simpl; eauto. }
  destruct Hcb as [l2 Hl2].
  destruct ru as [u| |]; try (eexists _, _; simpl; exact Hl2).
  unfold bind at 1.
  destruct (ext_stop_hook h_stop _ w2) as [rs w3] eqn:Es.
  apply stop_hook_logs in Es. rewrite Hl2, <- app_assoc in Es.
  simpl in Es.
  destruct rs as [b| |]; try (eexists _, _; simpl; exact Es).
  destruct (max_run_time_exceeded _ _); [eexists _, _; simpl; exact Es|].
  match goal with
  | |- context [ measurement_while fuel _ _ _ _ _ _ ?tt ?cs ?ss ?ww ] =>
    destruct (loop_extends_log fuel tt cs ss ww) as [l4 Hl4]
  end.
  unfold loop in Hl4. rewrite Hl4, Es, <- app_assoc. simpl. eauto.
Qed.

End LoggedHooks.

Section Scope.

Context {St : Type}.

Lemma bind_more {A B} (c : M St A) (k k' : A -> M St B)
    (w w' : world St) r :
  (forall a w1, k a w1 = (r, w') -> r <> Timeout -> k' a w1 = (r, w')) ->
  bind c k w = (r, w') -> r <> Timeout -> bind c k' w = (r, w').
Proof.
  intros Hk. unfold bind. destruct (c w) as [[a| |] w1]; auto.
Qed.

Lemma bind_more_both {A B} (c c' : M St A) (k k' : A -> M St B)
    (w w' : world St) r :
  (forall ra w1, c w = (ra, w1) -> ra <> Timeout -> c' w = (ra, w1)) ->
  (forall a w1, k a w1 = (r, w') -> r <> Timeout -> k' a w1 = (r, w')) ->
  bind c k w = (r, w') -> r <> Timeout -> bind c' k' w = (r, w').
Proof.
  intros Hc Hk. unfold bind. destruct (c w) as [[a| |] w1] eqn:E.
  - rewrite (Hc _ _ eq_refl) by discriminate. apply Hk.
  - rewrite (Hc _ _ eq_refl) by discriminate. auto.
  - intros [= <- <-]. congruence.
Qed.

(** More fuel does not change a run that ended. *)
Lemma measurement_while_more_fuel (number : Z) (time_hook : M St float)
    (stop_hook : list float -> M St bool) (min_run_time : float)
    (max_run_time : option float)
    (callback : option (Z -> float -> M St unit)) (extra fuel : nat) :
  forall total_time can_stop samples (w w' : world St) r,
  measurement_while fuel number time_hook stop_hook min_run_time
    max_run_time callback total_time can_stop samples w = (r, w') ->
  r <> Timeout ->
  measurement_while (fuel + extra) number time_hook stop_hook min_run_time
    max_run_time callback total_time can_stop samples w = (r, w').
Proof.
  induction fuel as [|fuel IH]; intros total_time can_stop samples w w' r.
  - simpl. destruct (_ || _) eqn:Hc.
    + intros [= <- <-]. congruence.
    + intros H _. destruct extra; simpl; rewrite Hc; exact H.
  - simpl. destruct (_ || _); [|tauto].
    apply bind_more. intros t w1.
    apply bind_more. intros u w2.
    apply bind_more. intros b w3.
    destruct (max_run_time_exceeded _ _); [tauto|]. apply IH.
Qed.

Lemma threaded_measurement_loop_more_fuel (self : Timer St) (number : Z)
    (time_hook : M St float) (stop_hook : list float -> M St bool)
    (min_run_time : float) (max_run_time : option float)
    (callback : option (Z -> float -> M St unit)) (extra fuel : nat)
    (w : world St) a :
  fst (_threaded_measurement_loop fuel self number time_hook stop_hook
         min_run_time max_run_time callback w) = Ret a ->
  fst (_threaded_measurement_loop (fuel + extra) self number time_hook
         stop_hook min_run_time max_run_time callback w) = Ret a.
Proof.
  unfold _threaded_measurement_loop, set_torch_threads.
  destruct (measurement_while fuel _ _ _ _ _ _ _ _ _ _) as [r w1] eqn:H.
  simpl. intros ->.
  eapply measurement_while_more_fuel in H; [|discriminate].
  rewrite H. reflexivity.
Qed.

Lemma set_torch_threads_more {A} n (body body' : M St A)
    (w w' : world St) r :
  (forall v v', body v = (r, v') -> r <> Timeout -> body' v = (r, v')) ->
  set_torch_threads n body w = (r, w') -> r <> Timeout ->
  set_torch_threads n body' w = (r, w').
Proof.
  intros Hb. unfold set_torch_threads.
  destruct (body _) as [r1 w1] eqn:E. intros [= -> <-] Hr.
  rewrite (Hb _ _ E Hr). reflexivity.
Qed.

Lemma block_size_while_more_fuel (self : Timer St) (min_run_time : float)
    (check : bool) (overhead uncached_time : float) (extra fuel : nat) :
  forall number cache_speedup (w w' : world St) r,
  block_size_while fuel self min_run_time check overhead uncached_time
    number cache_speedup w = (r, w') ->
  r <> Timeout ->
  block_size_while (fuel + extra) self min_run_time check overhead
    uncached_time number cache_speedup w = (r, w').
Proof.
  induction fuel as [|fuel IH]; intros number cache_speedup w w' r.
  - simpl. intros [= <- <-]. congruence.
  - simpl. apply bind_more. intros t w1. apply bind_more. intros cs w2.
    destruct (overhead_negligible _ _ _); [tauto|].
    destruct (PyFloat.gt _ _); [tauto|]. apply IH.
Qed.

Lemma estimate_block_size_more_fuel (collab : Collaborators St)
    (self : Timer St) (min_run_time : float) (check : bool)
    (extra fuel : nat) (w w' : world St) r :
  _estimate_block_size collab fuel self min_run_time check w = (r, w') ->
  r <> Timeout ->
  _estimate_block_size collab (fuel + extra) self min_run_time check w
  = (r, w').
Proof.
  unfold _estimate_block_size.
  apply bind_more. intros samples w1. apply bind_more. intros u w2.
  apply set_torch_threads_more. intros v v'.
  apply block_size_while_more_fuel.
Qed.

Lemma blocked_autorange_more_fuel (collab : Collaborators St)
    (self : Timer St) (callback : option (Z -> float -> M St unit))
    (min_run_time : float) (extra fuel : nat) (w : world St) m :
  fst (blocked_autorange collab fuel self callback min_run_time w) = Ret m ->
  fst (blocked_autorange collab (fuel + extra) self callback min_run_time w)
  = Ret m.
Proof.
  destruct (blocked_autorange collab fuel _ _ _ _) as [r w'] eqn:H.
  simpl. intros ->.
  enough (blocked_autorange collab (fuel + extra) self callback
            min_run_time w = (Ret m, w')) as -> by reflexivity.
  revert H. unfold blocked_autorange.
  intros H. eapply bind_more_both; [| | exact H | discriminate].
  - intros ra w1. apply estimate_block_size_more_fuel.
  - intros [number cs] w1. clear H. simpl.
    intros H _. eapply bind_more_both; [| | exact H | discriminate].
    + intros ra w2. unfold _threaded_measurement_loop.
      apply set_torch_threads_more. intros v v'.
      apply measurement_while_more_fuel.
    + auto.
Qed.

(** The thread scope is transparent to the result, the external state
    and the log of its body, and leaves the thread count as it was. *)
Lemma set_torch_threads_inv {A} n (body : M St A) (w w' : world St) r :
  set_torch_threads n body w = (r, w') ->
  exists w1,
    body {| ext := ext w; torch_threads := n; log := log w |} = (r, w1) /\
    ext w' = ext w1 /\ log w' = log w1 /\
    torch_threads w' = torch_threads w.
Proof.
  unfold set_torch_threads.
  destruct (body _) as [r1 w1]. intros [= <- <-]. exists w1. auto.
Qed.

End Scope.

(** ** Claims about [_threaded_measurement_loop] *)

(** C1 (as amended).  When [_threaded_measurement_loop] returns, either the
    accumulated total of the samples is not below [min_run_time] (it is
    [>= min_run_time] whenever neither of the two is NaN) and the stop-hook,
    called last on exactly the samples returned, answered true; or
    [max_run_time] is set to a non-zero value and the total exceeds it.
    Moreover, in any iteration whose calls return, the loop ends with the
    samples so far as soon as the total exceeds a non-zero [max_run_time],
    whatever the duration floor and the stop-hook say. *)
Theorem measurement_loop_exit_condition :
  forall (St : Type) (self : Timer St) (fuel : nat) (number : Z)
    (time_hook : M St float) (stop_hook : list float -> M St bool)
    (callback : option (Z -> float -> M St unit))
    (min_run_time : float) (max_run_time : option float)
    (w w' : world St) (r : list float),
  _threaded_measurement_loop fuel self number time_hook stop_hook
    min_run_time max_run_time callback w = (Ret r, w') ->
  ((PyFloat.lt (PyFloat.total r) min_run_time = false /\
    (PyFloat.is_number (PyFloat.total r) = true ->
     PyFloat.is_number min_run_time = true ->
     PyFloat.ge (PyFloat.total r) min_run_time = true) /\
    exists v v', stop_hook r v = (Ret true, v') /\
                 ext v' = ext w' /\ log v' = log w')
   \/
   (exists m, max_run_time = Some m /\ PyFloat.truthy m = true /\
              PyFloat.gt (PyFloat.total r) m = true))
  /\
  (forall fuel' total_time can_stop samples (v v1 v2 v3 : world St) t u b m,
     PyFloat.lt total_time min_run_time || negb can_stop = true ->
     time_hook v = (Ret t, v1) ->
     run_callback callback number t v1 = (Ret u, v2) ->
     stop_hook (samples ++ [t]) v2 = (Ret b, v3) ->
     max_run_time = Some m -> PyFloat.truthy m = true ->
     PyFloat.gt (PyFloat.add total_time t) m = true ->
     measurement_while (S fuel') number time_hook stop_hook min_run_time
       max_run_time callback total_time can_stop samples v
     = (Ret (samples ++ [t]), v3)).
Proof.
  intros St self fuel number time_hook stop_hook callback min_run_time
    max_run_time w w' r H.
  split; [|intros; eapply loop_valve; eassumption].
  apply set_torch_threads_inv in H as (w1 & H & Hext & Hlog & _).
  apply loop_returns in H as (more & _ & _ & Hexit);
    [|reflexivity|discriminate].
  destruct Hexit as [[Hlt [v Hv]]|Hmax].
  - left. repeat split; auto.
    + intros. now apply FloatFacts.lt_false_ge.
    + exists v, w1. auto.
  - right. unfold max_run_time_exceeded in Hmax.
    destruct max_run_time as [m|]; [|discriminate].
    apply andb_true_iff in Hmax as [? ?]. eauto.
Qed.

(** C6 (as amended).  The stop-hook is called after every sample, samples
    taken before the duration floor is reached included: over a run that
    returns [n] samples it is called exactly [n] times, the [k]-th time on
    the first [k] samples.  Only its use is guarded by the floor: a return
    that is not forced by [max_run_time] happens with the total not below
    [min_run_time]. *)
Theorem stop_hook_called_after_every_sample :
  forall (St : Type) (self : Timer St) (fuel : nat) (number : Z)
    (h_time : St -> outcome float * St)
    (h_stop : list float -> St -> outcome bool * St)
    (h_cb : option (Z -> float -> St -> outcome unit * St))
    (min_run_time : float) (max_run_time : option float)
    (w w' : world St) (r : list float),
  _threaded_measurement_loop fuel self number (ext_time_hook h_time)
    (ext_stop_hook h_stop) min_run_time max_run_time (ext_callback h_cb) w
    = (Ret r, w') ->
  stop_calls (log w') = stop_calls (log w) ++ prefixes 0 (length r) r /\
  (max_run_time_exceeded max_run_time (PyFloat.total r) = false ->
   PyFloat.lt (PyFloat.total r) min_run_time = false).
Proof.
  intros St self fuel number h_time h_stop h_cb min_run_time max_run_time
    w w' r H.
  apply set_torch_threads_inv in H as (w1 & H & _ & Hlog & _).
  rewrite Hlog. split.
  - apply loop_stop_calls in H as (more & -> & Hcalls). exact Hcalls.
  - apply loop_returns in H as (more & _ & _ & Hexit);
      [|reflexivity|discriminate].
    destruct Hexit as [[Hlt _]|Hmax]; congruence.
Qed.

(** C10.  Whatever [min_run_time], the stop-hook and [max_run_time] are,
    the loop begins with an iteration, because [can_stop] starts false: the
    sequence it returns is never empty, and the first thing it does is call
    the time-hook.  Hence every record built by [blocked_autorange] and
    [adaptive_autorange] has a non-empty [times]. *)
Theorem measurement_loop_times_nonempty :
  forall (St : Type) (self : Timer St) (number : Z)
    (min_run_time : float) (max_run_time : option float) (w : world St),
  (forall (time_hook : M St float) (stop_hook : list float -> M St bool)
     (callback : option (Z -> float -> M St unit)) fuel r w',
     _threaded_measurement_loop fuel self number time_hook stop_hook
       min_run_time max_run_time callback w = (Ret r, w') ->
     r <> [] /\ (0 < length r)%nat) /\
  (forall (h_time : St -> outcome float * St)
     (h_stop : list float -> St -> outcome bool * St)
     (h_cb : option (Z -> float -> St -> outcome unit * St)) fuel,
     exists res l,
       log (snd (_threaded_measurement_loop (S fuel) self number
                   (ext_time_hook h_time) (ext_stop_hook h_stop)
                   min_run_time max_run_time (ext_callback h_cb) w))
       = log w ++ EvTimeHook res :: l) /\
  (forall collab fuel callback threshold m w',
     (blocked_autorange collab fuel self callback min_run_time w = (Ret m, w')
      \/ adaptive_autorange collab fuel self threshold max_run_time callback
            min_run_time w = (Ret m, w')) ->
     times m <> []).
Proof.
  intros St self number min_run_time max_run_time w.
  assert (Hne : forall (min_run_time : float) (max_run_time : option float)
                  (w : world St) number (time_hook : M St float)
                  (stop_hook : list float -> M St bool)
                  (callback : option (Z -> float -> M St unit)) fuel r w',
             _threaded_measurement_loop fuel self number time_hook stop_hook
               min_run_time max_run_time callback w = (Ret r, w') ->
             r <> []).
  { clear. intros min_run_time max_run_time w number time_hook stop_hook
      callback fuel r w' H.
    apply set_torch_threads_inv in H as (w1 & H & _).
    apply loop_returns in H as (more & -> & Hne & _);
      [|reflexivity|discriminate].
    simpl. exact (Hne (orb_true_r _)). }
  split; [|split].
  - intros time_hook stop_hook callback fuel r w' H.
    apply Hne in H. split; [exact H|]. destruct r; [congruence|simpl; lia].
  - intros h_time h_stop h_cb fuel.
    destruct (_threaded_measurement_loop _ _ _ _ _ _ _ _ w) as [r w'] eqn:H.
    pose proof H as H'.
    apply set_torch_threads_inv in H' as (w1 & H' & _ & Hlog & _).
    simpl. rewrite Hlog.
    edestruct (loop_first_call number h_time h_stop h_cb min_run_time
                 max_run_time fuel PyFloat.zero false [])
      as (res & l & Hl); [apply orb_true_r|].
    rewrite H' in Hl. simpl in Hl. eauto.
  - intros collab fuel callback threshold m w' [H|H]; revert H;
      [unfold blocked_autorange | unfold adaptive_autorange];
      unfold bind at 1;
      destruct (_estimate_block_size _ _ _ _ _ _) as [[[n cs]| |] w1];
      try discriminate;
      unfold bind at 1;
      destruct (_threaded_measurement_loop _ _ _ _ _ _ _ _ w1)
        as [[ts| |] w2] eqn:Hloop;
      try discriminate;
      unfold ret; intros [= <- <-]; simpl;
      exact (Hne _ _ _ _ _ _ _ _ _ _ Hloop).
Qed.

(** C8.  With a time-hook that always reports 10ms, [number = 1],
    [min_run_time = 0.2], no [max_run_time] and a stop-hook that is always
    true, the loop returns exactly 20 samples of 10ms, and the record built
    from them has [number_per_run = 1].  The same holds end to end for
    [blocked_autorange] on a timed callable with zero dispatch overhead and
    a constant 10ms per block, for which the estimator settles on
    [number = 1]. *)
Theorem ten_ms_blocks_give_twenty_samples :
  forall (self : Timer nat) (extra : nat) (w : world nat),
  fst (_threaded_measurement_loop (20 + extra) self 1
         (ext_time_hook (Scenario.const_time PyFloat.c0_01))
         (ext_stop_hook (Scenario.const_stop true))
         PyFloat.c0_2 None None w)
  = Ret (List.repeat PyFloat.c0_01 20) /\
  length (List.repeat PyFloat.c0_01 20) = 20%nat /\
  number_per_run (_construct_measurement self 1 (List.repeat PyFloat.c0_01 20))
  = 1 /\
  exists m,
    fst (blocked_autorange Scenario.quiet (20 + extra) Scenario.ten_ms_timer
           None PyFloat.c0_2 w) = Ret m /\
    number_per_run m = 1 /\ times m = List.repeat PyFloat.c0_01 20.
Proof.
  intros self extra w. split; [|split; [|split]].
  - apply threaded_measurement_loop_more_fuel. vm_compute. reflexivity.
  - reflexivity.
  - reflexivity.
  - eexists. split.
    + apply blocked_autorange_more_fuel. vm_compute. reflexivity.
    + split; reflexivity.
Qed.

(** A zero [max_run_time] is falsy, so the ceiling test never fires: with a
    stop-hook that never agrees the loop keeps sampling for ever. *)
Lemma zero_ceiling_never_fires fuel :
  forall total_time samples (w : world nat),
  fst (measurement_while fuel 1
         (ext_time_hook (Scenario.const_time PyFloat.c0_01))
         (ext_stop_hook (Scenario.const_stop false))
         PyFloat.c0_2 (Some PyFloat.zero) None total_time false samples w)
  = Timeout.
Proof.
  induction fuel as [|fuel IH]; intros total_time samples w; simpl;
    rewrite orb_true_r; [reflexivity|].
  unfold bind, ext_time_hook, ext_stop_hook, call_ext, Scenario.const_time,
    Scenario.const_stop, ret. simpl.
  change (PyFloat.truthy PyFloat.zero) with false. simpl.
  apply IH.
Qed.

(** C1, counterexample.  (1) [max_run_time = 0.0] is set and the total
    exceeds it after the first 10ms sample, yet the loop never terminates
    when the stop-hook keeps answering false.  (2) With a NaN
    [min_run_time] the loop returns after one sample although the total is
    not [>= min_run_time] and no [max_run_time] is set. *)
Lemma measurement_loop_exit_condition_fails_as_stated :
  (PyFloat.gt (PyFloat.total [PyFloat.c0_01]) PyFloat.zero = true /\
   forall fuel,
     fst (_threaded_measurement_loop fuel Scenario.zero_timer 1
            (ext_time_hook (Scenario.const_time PyFloat.c0_01))
            (ext_stop_hook (Scenario.const_stop false))
            PyFloat.c0_2 (Some PyFloat.zero) None Scenario.w0) = Timeout)
  /\
  (fst (_threaded_measurement_loop 5 Scenario.zero_timer 1
          (ext_time_hook (Scenario.const_time PyFloat.c0_01))
          (ext_stop_hook (Scenario.const_stop true))
          PrimFloat.nan None None Scenario.w0) = Ret [PyFloat.c0_01] /\
   PyFloat.ge (PyFloat.total [PyFloat.c0_01]) PrimFloat.nan = false).
Proof.
  repeat split; try (vm_compute; reflexivity).
  intros fuel. unfold _threaded_measurement_loop, set_torch_threads.
  match goal with
  | |- context [ measurement_while fuel ?n ?th ?sh ?mn ?mx ?cb ?tt ?cs ?ss ?ww ] =>
    pose proof (zero_ceiling_never_fires fuel tt ss ww) as H;
    destruct (measurement_while fuel n th sh mn mx cb tt cs ss ww)
  end.
  exact H.
Qed.

(** C1, witness: a run ended by the ceiling (six 10ms samples against
    [max_run_time = 0.05], the stop-hook never agreeing). *)
Lemma measurement_loop_exit_condition_witness :
  exists r w',
    _threaded_measurement_loop 10 Scenario.zero_timer 1
      (ext_time_hook (Scenario.const_time PyFloat.c0_01))
      (ext_stop_hook (Scenario.const_stop false))
      PyFloat.c0_2 (Some PyFloat.c0_05) None Scenario.w0 = (Ret r, w') /\
    length r = 6%nat /\
    ((PyFloat.lt (PyFloat.total r) PyFloat.c0_2 = false /\
      (PyFloat.is_number (PyFloat.total r) = true ->
       PyFloat.is_number PyFloat.c0_2 = true ->
       PyFloat.ge (PyFloat.total r) PyFloat.c0_2 = true) /\
      exists v v', ext_stop_hook (Scenario.const_stop false) r v
                   = (Ret true, v') /\
                   ext v' = ext w' /\ log v' = log w')
     \/
     (exists m, Some PyFloat.c0_05 = Some m /\ PyFloat.truthy m = true /\
                PyFloat.gt (PyFloat.total r) m = true)).
Proof.
  eexists. eexists. split; [vm_compute; reflexivity|].
  split; [reflexivity|].
  refine (proj1 (measurement_loop_exit_condition nat Scenario.zero_timer 10 1
                   (ext_time_hook (Scenario.const_time PyFloat.c0_01))
                   (ext_stop_hook (Scenario.const_stop false)) None
                   PyFloat.c0_2 (Some PyFloat.c0_05) Scenario.w0 _ _ _)).
  vm_compute. reflexivity.
Defined.

(** C6, counterexample.  In the 10ms scenario the duration floor of 0.2s is
    first met at the twentieth sample, the total of the first nineteen
    being below it; yet the stop-hook has been called twenty times, once
    after each sample, the first time on the first sample alone. *)
Lemma stop_hook_called_before_floor :
  exists w',
    _threaded_measurement_loop 30 Scenario.zero_timer 1
      (ext_time_hook (Scenario.const_time PyFloat.c0_01))
      (ext_stop_hook (Scenario.const_stop true))
      PyFloat.c0_2 None None Scenario.w0
    = (Ret (List.repeat PyFloat.c0_01 20), w') /\
    PyFloat.lt (PyFloat.total (List.repeat PyFloat.c0_01 19)) PyFloat.c0_2 = true /\
    length (stop_calls (log w')) = 20%nat /\
    nth_error (stop_calls (log w')) 0 = Some [PyFloat.c0_01].
Proof.
  eexists. split; [vm_compute; reflexivity|].
  repeat split; vm_compute; reflexivity.
Qed.

(** C6, witness: the same run, read through the theorem. *)
Lemma stop_hook_called_after_every_sample_witness :
  exists w',
    _threaded_measurement_loop 30 Scenario.zero_timer 1
      (ext_time_hook (Scenario.const_time PyFloat.c0_01))
      (ext_stop_hook (Scenario.const_stop true))
      PyFloat.c0_2 None None Scenario.w0
    = (Ret (List.repeat PyFloat.c0_01 20), w') /\
    stop_calls (log w')
    = stop_calls (log Scenario.w0)
      ++ prefixes 0 20 (List.repeat PyFloat.c0_01 20).
Proof.
  eexists. split; [vm_compute; reflexivity|].
  refine (proj1 (stop_hook_called_after_every_sample nat Scenario.zero_timer
                   30 1 (Scenario.const_time PyFloat.c0_01)
                   (Scenario.const_stop true) None PyFloat.c0_2 None
                   Scenario.w0 _ (List.repeat PyFloat.c0_01 20) _)).
  vm_compute. reflexivity.
Defined.

(** C10, witness: with [min_run_time = 0] and a stop-hook that is always
    true the loop still takes one sample. *)
Lemma measurement_loop_times_nonempty_witness :
  exists w',
    _threaded_measurement_loop 3 Scenario.zero_timer 1
      (ext_time_hook (Scenario.const_time PyFloat.c0_01))
      (ext_stop_hook (Scenario.const_stop true))
      PyFloat.zero None None Scenario.w0 = (Ret [PyFloat.c0_01], w') /\
    [PyFloat.c0_01] <> [] /\ (0 < length [PyFloat.c0_01])%nat.
Proof.
  eexists. split; [vm_compute; reflexivity|].
  refine (proj1 (measurement_loop_times_nonempty nat Scenario.zero_timer 1
                   PyFloat.zero None Scenario.w0)
            (ext_time_hook (Scenario.const_time PyFloat.c0_01))
            (ext_stop_hook (Scenario.const_stop true)) None
            3%nat [PyFloat.c0_01] _ _).
  vm_compute. reflexivity.
Defined.

(** ** The block-size estimation loop *)

Section Estimator.

Context {St : Type}.

Variable self : Timer St.
Variable min_run_time : float.
Variable check : bool.
Variable overhead uncached_time : float.

Let loop (fuel : nat) :=
  block_size_while fuel self min_run_time check overhead uncached_time.

(** One iteration, when the timed callable returns [t]. *)
Lemma block_size_iteration fuel number cs (w : world St) t s :
  _timer self number (ext w) = (Ret t, s) ->
  loop (S fuel) number cs w =
  match update_cache_speedup check uncached_time t number cs with
  | Ret cs' =>
    if overhead_negligible overhead t min_run_time
       || PyFloat.gt t min_run_time
    then (Ret (number, cs'), logged w number (Ret t) s)
    else loop fuel (number * 10) cs' (logged w number (Ret t) s)
  | Raise e => (Raise e, logged w number (Ret t) s)
  | Timeout => (Timeout, logged w number (Ret t) s)
  end.
Proof.
  intros Ht. unfold loop. simpl.
  unfold bind at 1. unfold timer_timeit at 1, call_ext at 1. rewrite Ht.
  fold (logged w number (Ret t) s).
  unfold bind at 1, lift_outcome.
  destruct (update_cache_speedup _ _ _ _ _) as [cs'| |]; try reflexivity.
  destruct (overhead_negligible _ _ _); [reflexivity|].
  destruct (PyFloat.gt _ _); reflexivity.
Qed.

Lemma candidates_from_shift number k :
  map (fun j => number * 10 ^ Z.of_nat j) (seq 0 (S k))
  = number :: map (fun j => number * 10 * 10 ^ Z.of_nat j) (seq 0 k).
Proof.
  change (seq 0 (S k)) with (0%nat :: seq 1 k).
  rewrite <- seq_shift, map_cons, map_map. f_equal.
  - simpl. lia.
  - apply map_ext. intros j.
    rewrite Nat2Z.inj_succ, Z.pow_succ_r by lia. lia.
Qed.

(** The loop only ever returns one of its candidates, reached by
    multiplying by ten, and has called the timed callable on each
    candidate up to it, in order. *)
Lemma block_size_returns_candidate fuel :
  forall number cs (w w' : world St) n cs',
  loop fuel number cs w = (Ret (n, cs'), w') ->
  exists k, (k < fuel)%nat /\ n = number * 10 ^ Z.of_nat k /\
    map fst (timer_events (log w')) =
    map fst (timer_events (log w))
    ++ map (fun j => number * 10 ^ Z.of_nat j) (seq 0 (S k)).
Proof.
  induction fuel as [|fuel IH]; intros number cs w w' n cs'.
  - unfold loop. simpl. discriminate.
  - destruct (_timer self number (ext w)) as [[t| |] s] eqn:Ht.
    + rewrite (block_size_iteration _ _ _ _ _ _ Ht).
      assert (Hlog : map fst (timer_events (log (logged w number (Ret t) s)))
                     = map fst (timer_events (log w)) ++ [number]).
      { simpl. unfold timer_events. rewrite flat_map_app, map_app.
        reflexivity. }
      destruct (update_cache_speedup _ _ _ _ _) as [cs1| |];
        try discriminate.
      destruct (_ || _).
      * intros [= <- <- <-]. exists 0%nat. rewrite Hlog.
        repeat split; [lia | simpl; lia | simpl; f_equal; f_equal; lia].
      * intros H. apply IH in H as (k & Hk & -> & Hl).
        exists (S k). repeat split; [lia | |].
        -- rewrite Nat2Z.inj_succ, Z.pow_succ_r by lia. lia.
        -- rewrite Hl, Hlog, <- app_assoc. f_equal.
           symmetry. apply (candidates_from_shift number (S k)).
    + unfold loop. simpl. unfold bind at 1.
      unfold timer_timeit at 1, call_ext at 1. rewrite Ht. discriminate.
    + unfold loop. simpl. unfold bind at 1.
      unfold timer_timeit at 1, call_ext at 1. rewrite Ht. discriminate.
Qed.

(** *** A zero duration *)

(** With cache-speedup checking on, a zero duration makes the per-call
    time zero and the division by it raise. *)
Lemma zero_duration_faults t number f cs :
  PyFloat.eq t PyFloat.zero = true ->
  PyFloat.of_int number = Ret f -> PyFloat.is_number f = true ->
  update_cache_speedup true uncached_time t number cs
  = Raise ZeroDivisionError.
Proof.
  intros Ht Hf Hn. unfold update_cache_speedup, PyFloat.truediv_int.
  rewrite Hf. unfold PyFloat.truediv.
  destruct (PyFloat.eq f PyFloat.zero) eqn:Hz; [reflexivity|].
  rewrite (FloatFacts.zero_div_nonzero _ _ Ht Hn Hz). reflexivity.
Qed.

(** With checking off, a zero duration passes neither exit test when
    [min_run_time / 1000] is positive. *)
Lemma zero_duration_continues t :
  PyFloat.eq t PyFloat.zero = true ->
  PyFloat.lt PyFloat.zero (PrimFloat.div min_run_time PyFloat.thousand) = true ->
  PyFloat.lt min_run_time PyFloat.zero = false ->
  overhead_negligible overhead t min_run_time || PyFloat.gt t min_run_time
  = false.
Proof.
  intros Ht Hpos Hmin. unfold overhead_negligible.
  replace (PyFloat.ge t _) with false; [rewrite andb_false_r; simpl|].
  - unfold PyFloat.gt. fold (PyFloat.lt min_run_time t).
    rewrite (FloatFacts.lt_zero_r _ _ Ht). exact Hmin.
  - unfold PyFloat.ge. fold (PyFloat.le (PrimFloat.div min_run_time PyFloat.thousand) t).
    rewrite (FloatFacts.le_zero_r _ _ Ht). symmetry.
    apply (FloatFacts.lt_not_ge _ _ Hpos).
Qed.

(** *** A zero overhead *)

(** With a zero overhead, a duration that is a non-zero number passes
    the overhead test: the ratio is a zero. *)
Lemma zero_overhead_ratio t :
  PyFloat.eq overhead PyFloat.zero = true ->
  PyFloat.is_number t = true -> PyFloat.eq t PyFloat.zero = false ->
  PyFloat.eq (PyFloat.np_truediv overhead t) PyFloat.zero = true /\
  PyFloat.le (PyFloat.np_truediv overhead t) PyFloat.tenth_milli = true.
Proof.
  intros Ho Hn Hz. unfold PyFloat.np_truediv.
  pose proof (FloatFacts.zero_div_nonzero _ _ Ho Hn Hz) as H.
  split; [exact H | apply FloatFacts.zero_le_threshold, H].
Qed.

(** A duration beyond [min_run_time] is also at least
    [min_run_time / 1000], when the latter is no larger than the former. *)
Lemma beyond_min_is_long_enough t :
  PyFloat.le (PrimFloat.div min_run_time PyFloat.thousand) min_run_time = true ->
  PyFloat.gt t min_run_time = true ->
  PyFloat.ge t (PrimFloat.div min_run_time PyFloat.thousand) = true.
Proof.
  intros Hle Hgt. unfold PyFloat.ge.
  fold (PyFloat.le (PrimFloat.div min_run_time PyFloat.thousand) t).
  apply FloatFacts.lt_le. eapply FloatFacts.le_lt_trans; [exact Hle|].
  exact Hgt.
Qed.

Lemma loop_timings_S k number s :
  loop_timings self (S k) number s =
  match _timer self number s with
  | (Ret t, s') =>
    match loop_timings self k (number * 10) s' with
    | Some ts => Some (t :: ts)
    | None => None
    end
  | _ => None
  end.
Proof. reflexivity. Qed.

(** With a zero overhead the loop returns the first candidate whose
    duration reaches [min_run_time / 1000], provided the durations are
    non-zero numbers and the cache-speedup divisions do not fault. *)
Lemma block_size_first_hit k :
  PyFloat.eq overhead PyFloat.zero = true ->
  PyFloat.le (PrimFloat.div min_run_time PyFloat.thousand) min_run_time = true ->
  forall fuel number cs (w : world St) ts,
  loop_timings self (S k) number (ext w) = Some ts ->
  Forall (fun t => PyFloat.is_number t = true /\
                   PyFloat.eq t PyFloat.zero = false) ts ->
  (forall j t, (j < k)%nat -> nth_error ts j = Some t ->
     PyFloat.ge t (PrimFloat.div min_run_time PyFloat.thousand) = false) ->
  (forall t, nth_error ts k = Some t ->
     PyFloat.ge t (PrimFloat.div min_run_time PyFloat.thousand) = true) ->
  (forall j t cs0, nth_error ts j = Some t ->
     exists cs1, update_cache_speedup check uncached_time t
                   (number * 10 ^ Z.of_nat j) cs0 = Ret cs1) ->
  (k < fuel)%nat ->
  exists cs' w',
    loop fuel number cs w = (Ret (number * 10 ^ Z.of_nat k, cs'), w').
Proof.
  intros Ho Hle. induction k as [|k IH];
    intros fuel number cs w ts Hts Hok Hbefore Hat Hnofault Hfuel;
    (destruct fuel as [|fuel]; [lia|]);
    rewrite loop_timings_S in Hts;
    destruct (_timer self number (ext w)) as [[t| |] s] eqn:Ht;
    try discriminate;
    rewrite (block_size_iteration _ _ _ _ _ _ Ht).
  - injection Hts as <-.
    destruct (Hnofault 0%nat t cs eq_refl) as [cs1 Hcs].
    simpl in Hcs. rewrite Z.mul_1_r in Hcs. rewrite Hcs.
    apply Forall_cons_iff in Hok as [[Hn Hz] _].
    unfold overhead_negligible.
    destruct (zero_overhead_ratio t Ho Hn Hz) as [_ ->].
    rewrite (Hat t eq_refl). simpl.
    rewrite Z.mul_1_r. eauto.
  - destruct (loop_timings self (S k) (number * 10) s) as [ts'|] eqn:Hts';
      [|discriminate].
    injection Hts as <-.
    destruct (Hnofault 0%nat t cs eq_refl) as [cs1 Hcs].
    simpl in Hcs. rewrite Z.mul_1_r in Hcs. rewrite Hcs.
    apply Forall_cons_iff in Hok as [_ Hok].
    assert (Hshort : PyFloat.ge t
              (PrimFloat.div min_run_time PyFloat.thousand) = false)
      by (apply (Hbefore 0%nat); [lia|reflexivity]).
    replace (overhead_negligible overhead t min_run_time
             || PyFloat.gt t min_run_time) with false.
    + edestruct (IH fuel (number * 10) cs1 (logged w number (Ret t) s) ts'
                   Hts' Hok) as (cs' & w' & Hrun).
      * intros j t' Hj. apply (Hbefore (S j)). lia.
      * intros t'. apply (Hat t').
      * intros j t' cs0 Hnth.
        destruct (Hnofault (S j) t' cs0 Hnth) as [cs2 H2].
        exists cs2. rewrite <- H2. f_equal.
        rewrite Nat2Z.inj_succ, Z.pow_succ_r by lia. lia.
      * lia.
      * exists cs', w'. rewrite Hrun. do 3 f_equal.
        rewrite Nat2Z.inj_succ, Z.pow_succ_r by lia. lia.
    + symmetry. unfold overhead_negligible. rewrite Hshort, andb_false_r.
      simpl. destruct (PyFloat.gt t min_run_time) eqn:Hgt; [|reflexivity].
      rewrite (beyond_min_is_long_enough t Hle Hgt) in Hshort.
      discriminate.
Qed.

End Estimator.

Section EstimatorTop.

Context {St : Type}.

Variable collab : Collaborators St.
Variable self : Timer St.
Variable min_run_time : float.

(** [_estimate_block_size] is its prelude followed by the loop, started
    at [number = 1] under the thread scope. *)
Lemma estimate_via_prelude check fuel (w w1 : world St) ov un :
  block_size_prelude collab self check w = (Ret (ov, un), w1) ->
  _estimate_block_size collab fuel self min_run_time check w =
  set_torch_threads (_num_threads self)
    (block_size_while fuel self min_run_time check ov un 1 PyFloat.zero) w1.
Proof.
  unfold block_size_prelude, _estimate_block_size, bind.
  destruct (list_comprehension 5 _ w) as [[samples| |] w0]; try discriminate.
  destruct check;
    [destruct (_measure_uncached_runtime collab self w0) as [[u| |] w2];
       try discriminate|];
    unfold ret; intros [= <- <- <-]; reflexivity.
Qed.

Lemma estimate_inv check fuel (w w' : world St) x :
  _estimate_block_size collab fuel self min_run_time check w = (Ret x, w') ->
  exists ov un w1,
    block_size_prelude collab self check w = (Ret (ov, un), w1) /\
    set_torch_threads (_num_threads self)
      (block_size_while fuel self min_run_time check ov un 1 PyFloat.zero) w1
    = (Ret x, w').
Proof.
  unfold block_size_prelude, _estimate_block_size, bind.
  destruct (list_comprehension 5 _ w) as [[samples| |] w0]; try discriminate.
  destruct check;
    [destruct (_measure_uncached_runtime collab self w0) as [[u| |] w2];
       try discriminate|];
    intros H; eexists _, _, _; (split; [reflexivity | exact H]).
Qed.

Lemma fst_set_torch_threads {A} n (body : M St A) (w : world St) :
  fst (set_torch_threads n body w)
  = fst (body {| ext := ext w; torch_threads := n; log := log w |}).
Proof. unfold set_torch_threads. destruct (body _). reflexivity. Qed.

Lemma faults_on_zero_first_timing (w w1 : world St) ov un t s fuel :
  block_size_prelude collab self true w = (Ret (ov, un), w1) ->
  _timer self 1 (ext w1) = (Ret t, s) ->
  PyFloat.eq t PyFloat.zero = true ->
  fst (_estimate_block_size collab (S fuel) self min_run_time true w)
  = Raise ZeroDivisionError.
Proof.
  intros Hp Ht Hz.
  rewrite (estimate_via_prelude _ _ _ _ _ _ Hp), fst_set_torch_threads.
  erewrite block_size_iteration by exact Ht.
  erewrite zero_duration_faults; [reflexivity | exact Hz | |];
    vm_compute; reflexivity.
Qed.

Lemma exits_at_one_on_zero_overhead check (w w1 : world St) ov un t s fuel :
  block_size_prelude collab self check w = (Ret (ov, un), w1) ->
  PyFloat.eq ov PyFloat.zero = true ->
  _timer self 1 (ext w1) = (Ret t, s) ->
  PyFloat.is_number t = true -> PyFloat.eq t PyFloat.zero = false ->
  PyFloat.ge t (PrimFloat.div min_run_time PyFloat.thousand) = true ->
  (forall cs0, exists cs1,
     update_cache_speedup check un t 1 cs0 = Ret cs1) ->
  exists cs w',
    _estimate_block_size collab (S fuel) self min_run_time check w
    = (Ret (1, cs), w').
Proof.
  intros Hp Ho Ht Hn Hz Hge Hcs.
  rewrite (estimate_via_prelude _ _ _ _ _ _ Hp).
  unfold set_torch_threads.
  erewrite block_size_iteration by exact Ht.
  destruct (Hcs PyFloat.zero) as [cs1 ->].
  unfold overhead_negligible.
  destruct (zero_overhead_ratio ov t Ho Hn Hz) as [_ ->].
  rewrite Hge. simpl. eauto.
Qed.

End EstimatorTop.

(** ** Claims about [_estimate_block_size] *)

(** C4 (as amended).  In [_estimate_block_size], if the measured overhead
    is exactly 0 and the duration measured at [number = 1] is a non-zero
    number, then [relative_overhead] (computed without any fault) is zero
    and within the [1e-4] threshold, and the loop exits at [number = 1]
    provided that duration is at least [min_run_time / 1000] and the
    cache-speedup division, when requested, does not fault. *)
Theorem zero_overhead_exits_at_one :
  forall (St : Type) (collab : Collaborators St) (self : Timer St)
    (min_run_time : float) (check : bool) (fuel : nat)
    (w w1 : world St) (ov un t : float) (s : St),
  block_size_prelude collab self check w = (Ret (ov, un), w1) ->
  PyFloat.eq ov PyFloat.zero = true ->
  _timer self 1 (ext w1) = (Ret t, s) ->
  PyFloat.is_number t = true -> PyFloat.eq t PyFloat.zero = false ->
  PyFloat.ge t (PrimFloat.div min_run_time PyFloat.thousand) = true ->
  (forall cs0, exists cs1, update_cache_speedup check un t 1 cs0 = Ret cs1) ->
  PyFloat.eq (PyFloat.np_truediv ov t) PyFloat.zero = true /\
  PyFloat.le (PyFloat.np_truediv ov t) PyFloat.tenth_milli = true /\
  exists cs w',
    _estimate_block_size collab (S fuel) self min_run_time check w
    = (Ret (1, cs), w').
Proof.
  intros St collab self min_run_time check fuel w w1 ov un t s
    Hp Ho Ht Hn Hz Hge Hcs.
  destruct (zero_overhead_ratio ov t Ho Hn Hz) as [H1 H2].
  split; [exact H1|]. split; [exact H2|].
  eapply exits_at_one_on_zero_overhead; eassumption.
Qed.

(** C5 (as amended).  [_estimate_block_size] never returns a number below
    1: what it returns is a candidate [10^k], reached after calling the
    timed callable on [1, 10, ..., 10^k] in turn.  When the measured
    overhead is 0, [min_run_time / 1000 <= min_run_time], the durations
    measured on the candidates are non-zero numbers and no cache-speedup
    division faults, it returns the first candidate of that sequence whose
    duration is at least [min_run_time / 1000], as soon as the fuel allows
    that many steps. *)
Theorem block_size_is_first_long_enough :
  forall (St : Type) (collab : Collaborators St) (self : Timer St)
    (min_run_time : float) (check : bool) (fuel : nat) (w : world St),
  (forall n cs w',
     _estimate_block_size collab fuel self min_run_time check w
     = (Ret (n, cs), w') ->
     1 <= n /\
     exists k, (k < fuel)%nat /\ n = 10 ^ Z.of_nat k /\
       exists before,
         map fst (timer_events (log w')) = before ++ candidates (S k))
  /\
  (forall ov un w1 k ts,
     block_size_prelude collab self check w = (Ret (ov, un), w1) ->
     PyFloat.eq ov PyFloat.zero = true ->
     PyFloat.le (PrimFloat.div min_run_time PyFloat.thousand) min_run_time = true ->
     loop_timings self (S k) 1 (ext w1) = Some ts ->
     Forall (fun t => PyFloat.is_number t = true /\
                      PyFloat.eq t PyFloat.zero = false) ts ->
     (forall j t, (j < k)%nat -> nth_error ts j = Some t ->
        PyFloat.ge t (PrimFloat.div min_run_time PyFloat.thousand) = false) ->
     (forall t, nth_error ts k = Some t ->
        PyFloat.ge t (PrimFloat.div min_run_time PyFloat.thousand) = true) ->
     (forall j t cs0, nth_error ts j = Some t ->
        exists cs1, update_cache_speedup check un t (10 ^ Z.of_nat j) cs0
                    = Ret cs1) ->
     (k < fuel)%nat ->
     exists cs w',
       _estimate_block_size collab fuel self min_run_time check w
       = (Ret (10 ^ Z.of_nat k, cs), w')).
Proof.
  intros St collab self min_run_time check fuel w. split.
  - intros n cs w' H.
    apply estimate_inv in H as (ov & un & w1 & _ & H).
    apply set_torch_threads_inv in H as (w2 & H & _ & Hlog & _).
    apply block_size_returns_candidate in H as (k & Hk & -> & Hl).
    rewrite Z.mul_1_l. split; [|exists k; repeat split; auto].
    + pose proof (Z.pow_pos_nonneg 10 (Z.of_nat k)). lia.
    + rewrite Hlog, Hl. eexists. f_equal. unfold candidates.
      apply map_ext. intros j. lia.
  - intros ov un w1 k ts Hp Ho Hle Hts Hok Hbefore Hat Hnofault Hfuel.
    erewrite estimate_via_prelude by exact Hp.
    unfold set_torch_threads.
    edestruct (block_size_first_hit self min_run_time check ov un k Ho Hle
                 fuel 1 PyFloat.zero
                 {| ext := ext w1; torch_threads := _num_threads self;
                    log := log w1 |} ts Hts Hok Hbefore Hat)
      as (cs' & w' & Hrun); [|exact Hfuel|].
    + intros j t cs0 Hnth. rewrite Z.mul_1_l. now apply Hnofault.
    + rewrite Hrun, Z.mul_1_l. eauto.
Qed.

(** C4, counterexample.  The overhead is measured as exactly 0, and so is
    the duration at [number = 1]: [relative_overhead] is then NaN, not 0,
    fails the threshold test, and the loop does not exit at [number = 1]
    although that duration is at least [min_run_time / 1000] (with
    [min_run_time = 0]); it moves on and returns 10. *)
Lemma zero_overhead_ratio_can_be_nan :
  fst (block_size_prelude Scenario.quiet Scenario.slow_from_ten_timer false
         Scenario.w0) = Ret (PyFloat.zero, PyFloat.zero) /\
  (forall s, fst (_timer Scenario.slow_from_ten_timer 1 s) = Ret PyFloat.zero) /\
  PyFloat.is_number (PyFloat.np_truediv PyFloat.zero PyFloat.zero) = false /\
  PyFloat.eq (PyFloat.np_truediv PyFloat.zero PyFloat.zero) PyFloat.zero = false /\
  PyFloat.le (PyFloat.np_truediv PyFloat.zero PyFloat.zero) PyFloat.tenth_milli
  = false /\
  PyFloat.ge PyFloat.zero (PrimFloat.div PyFloat.zero PyFloat.thousand) = true /\
  fst (_estimate_block_size Scenario.quiet 50 Scenario.slow_from_ten_timer
         PyFloat.zero false Scenario.w0) = Ret (10, PyFloat.zero).
Proof. repeat split; vm_compute; reflexivity. Qed.

(** C4, witness: zero overhead and 10ms at [number = 1]. *)
Lemma zero_overhead_exits_at_one_witness :
  PyFloat.eq (PyFloat.np_truediv PyFloat.zero PyFloat.c0_01) PyFloat.zero = true /\
  PyFloat.le (PyFloat.np_truediv PyFloat.zero PyFloat.c0_01)
    PyFloat.tenth_milli = true /\
  exists cs w',
    _estimate_block_size Scenario.quiet 1 Scenario.ten_ms_timer PyFloat.c0_2
      true Scenario.w0 = (Ret (1, cs), w').
Proof.
  eapply (zero_overhead_exits_at_one nat Scenario.quiet Scenario.ten_ms_timer
            PyFloat.c0_2 true 0 Scenario.w0);
    try (vm_compute; reflexivity).
  intros cs0. eexists. vm_compute. reflexivity.
Defined.

(** C5, counterexample.  The overhead is measured as 0; durations are 0
    below ten repetitions and one second from ten on.  With the default
    [min_run_time = 0.2] the first candidate lasting at least
    [min_run_time / 1000] is 10, yet the estimator, as the public
    strategies call it, returns nothing: it raises [ZeroDivisionError] at
    [number = 1].  With [min_run_time = 0] and cache-speedup checking off
    the candidate 1 already lasts [min_run_time / 1000], yet 10 is
    returned. *)
Lemma block_size_not_first_long_enough :
  fst (block_size_prelude Scenario.quiet Scenario.slow_from_ten_timer true
         Scenario.w0) = Ret (PyFloat.zero, PyFloat.zero) /\
  (PyFloat.ge PyFloat.zero (PrimFloat.div PyFloat.c0_2 PyFloat.thousand) = false /\
   PyFloat.ge 0x1p+0%float (PrimFloat.div PyFloat.c0_2 PyFloat.thousand) = true /\
   fst (_estimate_block_size Scenario.quiet 50 Scenario.slow_from_ten_timer
          PyFloat.c0_2 true Scenario.w0) = Raise ZeroDivisionError) /\
  (PyFloat.ge PyFloat.zero (PrimFloat.div PyFloat.zero PyFloat.thousand) = true /\
   fst (_estimate_block_size Scenario.quiet 50 Scenario.slow_from_ten_timer
          PyFloat.zero false Scenario.w0) = Ret (10, PyFloat.zero)).
Proof. repeat split; vm_compute; reflexivity. Qed.

(** C5, witness: zero overhead, 61us below a hundred repetitions and 10ms
    from a hundred on; the estimator returns 100. *)
Lemma block_size_is_first_long_enough_witness :
  exists cs w',
    _estimate_block_size Scenario.quiet 5 Scenario.step_timer PyFloat.c0_2
      true Scenario.w0 = (Ret (100, cs), w').
Proof.
  change 100 with (10 ^ Z.of_nat 2).
  eapply (proj2 (block_size_is_first_long_enough nat Scenario.quiet
                   Scenario.step_timer PyFloat.c0_2 true 5 Scenario.w0));
    try (vm_compute; reflexivity).
  - repeat constructor.
  - intros [|[|j]] t Hj; try lia; simpl; intros H; inversion H; subst;
      vm_compute; reflexivity.
  - intros t. simpl. intros H; inversion H; subst. vm_compute. reflexivity.
  - intros [|[|[|j]]] t cs0; simpl; intros H;
      try (destruct j; discriminate H);
      inversion H; subst; eexists; vm_compute; reflexivity.
  - lia.
Defined.

(** ** Claims about [timeit], [repeat] and [autorange] *)

Section FixedRepetition.

Context {St : Type}.
Variable self : Timer St.

Lemma timer_events_snoc l number r :
  timer_events (l ++ [EvTimer number r]) = timer_events l ++ [(number, r)].
Proof. unfold timer_events. rewrite flat_map_app. reflexivity. Qed.



End FixedRepetition.




(** C9.  [Timer.repeat] and [Timer.autorange] fail at once whatever their
    arguments: they raise [NotImplementedError] with a message naming
    [Timer.blocked_autorange], never return a value, and leave the world as
    it was: the timed work has not been run and nothing has been
    called. *)
Theorem legacy_entry_points_always_fail :
  forall (St : Type) (self : Timer St) (repeat_count number : Z)
    (callback : option (Z -> float -> M St unit)) (w : world St),
  let msg := "See `Timer.blocked_autorange.`" in
  repeat self repeat_count number w = (Raise (NotImplementedError msg), w) /\
  autorange self callback w = (Raise (NotImplementedError msg), w) /\
  is_ret (fst (repeat self repeat_count number w)) = false /\
  is_ret (fst (autorange self callback w)) = false /\
  timer_events (log (snd (repeat self repeat_count number w)))
  = timer_events (log w) /\
  timer_events (log (snd (autorange self callback w)))
  = timer_events (log w) /\
  String.index 0 "Timer.blocked_autorange" msg = Some 5%nat.
Proof.
  intros St self repeat_count number callback w msg.
  repeat split.
Qed.

(** ** Claims about construction *)

Section Construction.

Import Globals.

Variables (label sub_label description env : option string).
Variable num_threads : Z.

Variable compile : value -> string -> outcome unit.
Variables (setup timer : value).

(** What [__init__] does to the heap when handed a dict: it allocates one
    new dict holding the same entries, plus [torch] and [__builtins__]
    where absent. *)
Lemma init_allocates s g d (h h' : heap) t :
  h !! g = Some (ODict d) ->
  __init__ compile (VStr s) setup timer (Some g) label sub_label
    description env num_threads h = (Ret t, h') ->
  h !! _timer_globals t = None /\
  h' = <[_timer_globals t :=
           ODict (setdefault "__builtins__" builtins
                    (setdefault "torch" torch d))]> h.
Proof.
  intros Hg. unfold __init__, dict_of_globals, alloc, timeit_Timer.
  rewrite Hg. destruct (compile setup s); try discriminate.
  rewrite lookup_insert_eq. intros [= <- <-]. simpl.
  split; [apply not_elem_of_dom, is_fresh | apply insert_insert_eq].
Qed.

Lemma setdefault_keeps k v k0 v0 (d : gmap string value) :
  d !! k = Some v -> setdefault k0 v0 d !! k = Some v.
Proof.
  intros Hk. unfold setdefault. destruct (d !! k0) eqn:E; [exact Hk|].
  rewrite lookup_insert_ne; [exact Hk|]. intros ->. congruence.
Qed.

(** A binding-level mutation of one dict leaves any other dict alone. *)
Lemma setitem_other l l0 k v k0 (h : heap) :
  l <> l0 -> dict_getitem l0 k0 (dict_setitem l k v h) = dict_getitem l0 k0 h.
Proof.
  intros Hne. unfold dict_getitem, dict_setitem.
  destruct (h !! l) as [[d|items]|]; try reflexivity.
  rewrite lookup_insert_ne by exact Hne. reflexivity.
Qed.

Lemma delitem_other l l0 k k0 (h : heap) :
  l <> l0 -> dict_getitem l0 k0 (dict_delitem l k h) = dict_getitem l0 k0 h.
Proof.
  intros Hne. unfold dict_getitem, dict_delitem.
  destruct (h !! l) as [[d|items]|]; try reflexivity.
  rewrite lookup_insert_ne by exact Hne. reflexivity.
Qed.

(** Appending to a list object leaves every dict as it is. *)
Lemma append_keeps_dicts r x l (h : heap) d :
  h !! l = Some (ODict d) -> list_append r x h !! l = Some (ODict d).
Proof.
  intros Hl. unfold list_append.
  destruct (h !! r) as [[d'|items]|] eqn:Hr; try exact Hl.
  rewrite lookup_insert_ne; [exact Hl|]. intros ->. congruence.
Qed.

Lemma append_seen r x (h : heap) items :
  h !! r = Some (OList items) ->
  list_append r x h !! r = Some (OList (items ++ [x])).
Proof.
  intros Hr. unfold list_append. rewrite Hr. apply lookup_insert_eq.
Qed.

End Construction.

(** C7 (as amended).  At construction the caller's globals dict is copied
    shallowly: the Timer gets a dict of its own, a new object holding the
    same entries (plus [torch], and the [__builtins__] that [timeit.Timer]
    binds, when absent), and the caller's heap is
    otherwise untouched.  Hence binding, rebinding or deleting a name
    through the Timer's dict is not visible in the caller's dict, and
    conversely.  The values themselves are shared: a name bound to an object
    is bound to the same object in both dicts, so an in-place mutation of
    that object (here, appending to a list) is seen through both. *)
Theorem globals_are_copied_shallowly :
  forall (compile : Globals.value -> string -> outcome unit)
    (s : string) (setup timer : Globals.value)
    (g : Globals.loc) (d : gmap string Globals.value)
    (label sub_label description env : option string) (num_threads : Z)
    (h h' : Globals.heap) (t : Globals.timer_object),
  h !! g = Some (Globals.ODict d) ->
  Globals.__init__ compile (Globals.VStr s) setup timer (Some g) label
    sub_label description env num_threads h = (Ret t, h') ->
  let l := Globals._timer_globals t in
  (h !! l = None /\ l <> g /\ forall l0, l0 <> l -> h' !! l0 = h !! l0) /\
  (forall k v, d !! k = Some v -> Globals.dict_getitem l k h' = Some v) /\
  (forall k v k0,
     Globals.dict_getitem g k0 (Globals.dict_setitem l k v h')
       = Globals.dict_getitem g k0 h /\
     Globals.dict_getitem g k0 (Globals.dict_delitem l k h')
       = Globals.dict_getitem g k0 h /\
     Globals.dict_getitem l k0 (Globals.dict_setitem g k v h')
       = Globals.dict_getitem l k0 h' /\
     Globals.dict_getitem l k0 (Globals.dict_delitem g k h')
       = Globals.dict_getitem l k0 h') /\
  (forall k r items x,
     d !! k = Some (Globals.VRef r) ->
     h !! r = Some (Globals.OList items) ->
     Globals.deref_item l k (Globals.list_append r x h')
       = Some (Globals.OList (items ++ [x])) /\
     Globals.deref_item g k (Globals.list_append r x h')
       = Some (Globals.OList (items ++ [x]))).
Proof.
  intros compile s setup timer g d label sub_label description env
    num_threads h h' t Hg Hinit l.
  destruct (init_allocates _ _ _ _ _ _ _ _ _ _ _ _ _ _ Hg Hinit)
    as [Hfresh ->].
  fold l in Hfresh |- *.
  set (d' := Globals.setdefault "__builtins__" Globals.builtins
               (Globals.setdefault "torch" Globals.torch d)).
  assert (Hne : l <> g) by (intros E; rewrite E in Hfresh; congruence).
  assert (Hl : (<[l := Globals.ODict d']> h) !! l = Some (Globals.ODict d'))
    by apply lookup_insert_eq.
  assert (Hg' : (<[l := Globals.ODict d']> h) !! g = Some (Globals.ODict d))
    by (rewrite lookup_insert_ne by exact Hne; exact Hg).
  assert (Hkeep : forall k v, d !! k = Some v -> d' !! k = Some v)
    by (intros k v Hk; unfold d'; now apply setdefault_keeps, setdefault_keeps).
  split; [|split; [|split]].
  - repeat split; auto. intros l0 Hl0. now apply lookup_insert_ne.
  - intros k v Hk. unfold Globals.dict_getitem. rewrite Hl. now apply Hkeep.
  - intros k v k0. repeat split.
    + rewrite setitem_other by exact Hne.
      unfold Globals.dict_getitem. rewrite Hg', Hg. reflexivity.
    + rewrite delitem_other by exact Hne.
      unfold Globals.dict_getitem. rewrite Hg', Hg. reflexivity.
    + apply setitem_other. congruence.
    + apply delitem_other. congruence.
  - intros k r items x Hk Hr.
    assert (Hrl : r <> l) by (intros E; rewrite E in Hr; congruence).
    assert (Hr' : Globals.list_append r x (<[l := Globals.ODict d']> h) !! r
                  = Some (Globals.OList (items ++ [x])))
      by (apply append_seen; rewrite lookup_insert_ne by congruence;
          exact Hr).
    unfold Globals.deref_item, Globals.dict_getitem.
    rewrite (append_keeps_dicts _ _ _ _ _ Hl),
            (append_keeps_dicts _ _ _ _ _ Hg').
    rewrite (Hkeep _ _ Hk), Hk. split; exact Hr'.
Qed.

(** C7, counterexample.  The caller's dict binds [x] to a list.  After
    construction the Timer's dict is another object, but its [x] is the very
    same list: appending to it through the Timer's dict changes what the
    caller reads under [x].  The copy is not deep. *)
Lemma globals_copy_is_not_deep :
  exists t h1,
    Globals.__init__ Scenario.accepts_all Scenario.pass Scenario.pass
      Scenario.default_timer (Some Scenario.caller_globals)
      None None None None 1 Scenario.caller_heap = (Ret t, h1) /\
    Globals._timer_globals t <> Scenario.caller_globals /\
    Globals.dict_getitem (Globals._timer_globals t) "x" h1
      = Some (Globals.VRef Scenario.shared_list) /\
    Globals.deref_item Scenario.caller_globals "x" Scenario.caller_heap
      = Some (Globals.OList [Globals.VInt 1]) /\
    Globals.deref_item Scenario.caller_globals "x"
      (Globals.list_append Scenario.shared_list (Globals.VInt 7) h1)
      = Some (Globals.OList [Globals.VInt 1; Globals.VInt 7]).
Proof.
  eexists _, _. split; [reflexivity|].
  repeat split; try (vm_compute; reflexivity).
  vm_compute. discriminate.
Qed.

(** C7, witness: the same construction, read through the theorem. *)
Lemma globals_are_copied_shallowly_witness :
  exists t h1,
    Globals.__init__ Scenario.accepts_all Scenario.pass Scenario.pass
      Scenario.default_timer (Some Scenario.caller_globals)
      None None None None 1 Scenario.caller_heap = (Ret t, h1) /\
    Globals._timer_globals t <> Scenario.caller_globals /\
    Globals.dict_getitem Scenario.caller_globals "y"
      (Globals.dict_setitem (Globals._timer_globals t) "y" (Globals.VInt 3) h1)
    = Globals.dict_getitem Scenario.caller_globals "y" Scenario.caller_heap.
Proof.
  eexists _, _. split; [reflexivity|].
  pose proof (globals_are_copied_shallowly Scenario.accepts_all "pass"
                Scenario.pass Scenario.default_timer Scenario.caller_globals
                {[ "x" := Globals.VRef Scenario.shared_list ]}
                None None None None 1 Scenario.caller_heap _ _
                eq_refl eq_refl) as [(_ & Hne & _) (_ & Hset & _)].
  split; [exact Hne|].
  exact (proj1 (Hset "y" (Globals.VInt 3) "y")).
Defined.

(** * Further properties *)

(** ** The measurement loop: where it stops and what it calls *)

Section LoopExtent.

Context {St : Type}.

Variable number : Z.
Variable time_hook : M St float.
Variable stop_hook : list float -> M St bool.
Variable callback : option (Z -> float -> M St unit).
Variable min_run_time : float.
Variable max_run_time : option float.

Let loop (fuel : nat) :=
  measurement_while fuel number time_hook stop_hook min_run_time
    max_run_time callback.

Lemma loop_stops_at fuel total_time can_stop samples (w : world St) :
  PyFloat.lt total_time min_run_time || negb can_stop = false ->
  measurement_while fuel number time_hook stop_hook min_run_time
    max_run_time callback total_time can_stop samples w = (Ret samples, w).
Proof. intros Hc. destruct fuel; simpl; rewrite Hc; reflexivity. Qed.

(** The loop never samples past a point where it could stop: after each
    sample but the last the ceiling was not exceeded, and either the
    total was still below the floor or the stop-hook had answered
    false. *)
Lemma loop_minimal fuel :
  forall total_time can_stop samples (w : world St) r w',
  total_time = PyFloat.total samples ->
  loop fuel total_time can_stop samples w = (Ret r, w') ->
  exists more,
    r = samples ++ more /\
    forall k, (length samples < k < length r)%nat ->
      max_run_time_exceeded max_run_time (PyFloat.total (firstn k r)) = false /\
      (PyFloat.lt (PyFloat.total (firstn k r)) min_run_time = true \/
       exists v v', stop_hook (firstn k r) v = (Ret false, v')).
Proof.
  induction fuel as [|fuel IH]; intros total_time can_stop samples w r w' Ht.
  - unfold loop. simpl. destruct (_ || _); [discriminate|].
    intros [= <- <-]. exists []. rewrite app_nil_r. split; [reflexivity|].
    intros k Hk. lia.
  - destruct (PyFloat.lt total_time min_run_time || negb can_stop) eqn:Hc.
    + intros H.
      apply loop_iteration in H
        as (t & u & b & w1 & w2 & w3 & _ & _ & Hstop & H); [|exact Hc].
      assert (L : length (samples ++ [t]) = S (length samples))
        by (rewrite length_app; simpl; lia).
      destruct (max_run_time_exceeded _ _) eqn:Hmax.
      * destruct H as [-> ->]. exists [t]. split; [reflexivity|].
        intros k Hk. lia.
      * pose proof H as Hrun.
        apply IH in H as (more & -> & Hmin);
          [|rewrite total_snoc, Ht; reflexivity].
        assert (E : (samples ++ [t]) ++ more = samples ++ t :: more)
          by (rewrite <- app_assoc; reflexivity).
        exists (t :: more). rewrite E in *. split; [reflexivity|].
        intros k Hk.
        destruct (Nat.eq_dec k (S (length samples))) as [->|Hne].
        -- rewrite <- E, <- L, take_app_length.
           rewrite total_snoc, <- Ht. split; [exact Hmax|].
           destruct (PyFloat.lt (PyFloat.add total_time t) min_run_time
                     || negb b) eqn:Hc'.
           ++ apply orb_true_iff in Hc' as [Hlt|Hb]; [left; exact Hlt|].
              right. apply negb_true_iff in Hb. subst b. eauto.
           ++ unfold loop in Hrun. rewrite (loop_stops_at _ _ _ _ _ Hc') in Hrun.
              injection Hrun as Hr _.
              apply (f_equal (@length float)) in Hr.
              rewrite L, length_app in Hr. simpl in Hr.
              rewrite length_app in Hk. simpl in Hk. lia.
        -- apply Hmin. rewrite L. lia.
    + unfold loop. simpl. rewrite Hc. intros [= <- <-].
      exists []. rewrite app_nil_r. split; [reflexivity|].
      intros k Hk. lia.
Qed.

End LoopExtent.

Section LoopLog.

Context {St : Type}.

Variable number : Z.
Variable h_time : St -> outcome float * St.
Variable h_stop : list float -> St -> outcome bool * St.
Variable h_cb : option (Z -> float -> St -> outcome unit * St).
Variable min_run_time : float.
Variable max_run_time : option float.

Let loop (fuel : nat) :=
  measurement_while fuel number (ext_time_hook h_time) (ext_stop_hook h_stop)
    min_run_time max_run_time (ext_callback h_cb).

Let has_callback : bool :=
  match h_cb with Some _ => true | None => false end.

Lemma callback_logs_exactly t (w w1 : world St) r :
  run_callback (ext_callback h_cb) number t w = (r, w1) ->
  log w1 = log w ++ (if has_callback then [EvCallback number t r] else []).
Proof.
  unfold has_callback. destruct h_cb as [cb|]; simpl.
  - unfold call_ext. destruct (cb number t (ext w)) as [r0 s].
    intros [= <- <-]. reflexivity.
  - unfold ret. intros [= <- <-]. simpl. now rewrite app_nil_r.
Qed.

(** The log of a run that returns: iteration after iteration, the
    time-hook, the callback, the stop-hook. *)
Lemma loop_log_shape fuel :
  forall total_time can_stop samples (w : world St) r w',
  loop fuel total_time can_stop samples w = (Ret r, w') ->
  exists new,
    r = samples ++ map fst new /\
    log w' = log w ++ run_events has_callback number samples new.
Proof.
  induction fuel as [|fuel IH]; intros total_time can_stop samples w r w'.
  - unfold loop. simpl. destruct (_ || _); [discriminate|].
    intros [= <- <-]. exists []. simpl. now rewrite !app_nil_r.
  - destruct (PyFloat.lt total_time min_run_time || negb can_stop) eqn:Hc.
    + intros H.
      apply loop_iteration in H
        as (t & u & b & w1 & w2 & w3 & Ht & Hcb & Hs & H); [|exact Hc].
      apply time_hook_logs in Ht. apply callback_logs_exactly in Hcb.
      apply stop_hook_logs in Hs. destruct u.
      assert (Hlog : log w3 = log w
                     ++ sample_events has_callback number samples t b).
      { rewrite Hs, Hcb, Ht. unfold sample_events.
        rewrite <- !app_assoc. reflexivity. }
      destruct (max_run_time_exceeded _ _).
      * destruct H as [-> ->]. exists [(t, b)]. simpl.
        rewrite app_nil_r. split; [reflexivity | exact Hlog].
      * apply IH in H as (new & -> & Hl).
        exists ((t, b) :: new). simpl. rewrite <- app_assoc. simpl.
        split; [reflexivity|].
        rewrite Hl, Hlog, <- app_assoc. reflexivity.
    + unfold loop. simpl. rewrite Hc. intros [= <- <-].
      exists []. simpl. now rewrite !app_nil_r.
Qed.

(** The loop raises nothing of its own: when it fails, the last call it
    made is the one that raised. *)
Lemma loop_raises fuel :
  forall total_time can_stop samples (w : world St) e w',
  loop fuel total_time can_stop samples w = (Raise e, w') ->
  exists ev, last (log w') = Some ev /\ event_raised ev = Some e.
Proof.
  induction fuel as [|fuel IH]; intros total_time can_stop samples w e w';
    unfold loop; simpl;
    destruct (PyFloat.lt total_time min_run_time || negb can_stop);
    try discriminate.
  unfold bind at 1.
  destruct (ext_time_hook h_time w) as [rt w1] eqn:Et.
  apply time_hook_logs in Et.
  destruct rt as [t|e0|]; [|intros [= <- <-]|discriminate].
  2: { eexists. rewrite Et, last_snoc. split; reflexivity. }
  unfold bind at 1.
  destruct (run_callback _ _ _ _) as [ru w2] eqn:Ecb.
  destruct ru as [u|e0|]; [|intros [= <- <-]|discriminate].
  2: { pose proof Ecb as Ecb'. apply callback_logs_exactly in Ecb.
       unfold has_callback in Ecb. destruct h_cb as [cb|].
       - eexists. rewrite Ecb, last_snoc. split; reflexivity.
       - simpl in Ecb'. discriminate. }
  unfold bind at 1.
  destruct (ext_stop_hook h_stop _ w2) as [rs w3] eqn:Es.
  apply stop_hook_logs in Es.
  destruct rs as [b|e0|]; [|intros [= <- <-]|discriminate].
  2: { eexists. rewrite Es, last_snoc. split; reflexivity. }
  destruct (max_run_time_exceeded _ _); [discriminate|]. apply IH.
Qed.

End LoopLog.

(** X1.  Over a run of [_threaded_measurement_loop] that returns, the calls
    made are, sample after sample and in this order: the time-hook, whose
    result is the sample; the callback, if one was given, with [number] and
    that sample; the stop-hook, on all the samples taken so far.  Nothing
    else is called, and the samples returned are the time-hook's results in
    the order they were taken. *)
Theorem measurement_loop_call_order :
  forall (St : Type) (self : Timer St) (fuel : nat) (number : Z)
    (h_time : St -> outcome float * St)
    (h_stop : list float -> St -> outcome bool * St)
    (h_cb : option (Z -> float -> St -> outcome unit * St))
    (min_run_time : float) (max_run_time : option float)
    (w w' : world St) (r : list float),
  _threaded_measurement_loop fuel self number (ext_time_hook h_time)
    (ext_stop_hook h_stop) min_run_time max_run_time (ext_callback h_cb) w
    = (Ret r, w') ->
  exists new,
    map fst new = r /\
    log w' = log w ++ run_events (match h_cb with Some _ => true | None => false end)
                        number [] new.
Proof.
  intros St self fuel number h_time h_stop h_cb min_run_time max_run_time
    w w' r H.
  apply set_torch_threads_inv in H as (w1 & H & _ & Hlog & _).
  apply loop_log_shape in H as (new & -> & Hl).
  exists new. rewrite Hlog. split; [reflexivity | exact Hl].
Qed.

(** X2.  [_threaded_measurement_loop] stops at the first sample at which it
    can: after every sample but the last, the total did not exceed a
    non-zero [max_run_time], and either the total was still below
    [min_run_time] or the stop-hook answered false on the samples so far. *)
Theorem measurement_loop_stops_at_first_exit :
  forall (St : Type) (self : Timer St) (fuel : nat) (number : Z)
    (time_hook : M St float) (stop_hook : list float -> M St bool)
    (callback : option (Z -> float -> M St unit))
    (min_run_time : float) (max_run_time : option float)
    (w w' : world St) (r : list float),
  _threaded_measurement_loop fuel self number time_hook stop_hook
    min_run_time max_run_time callback w = (Ret r, w') ->
  forall k, (0 < k < length r)%nat ->
    max_run_time_exceeded max_run_time (PyFloat.total (firstn k r)) = false /\
    (PyFloat.lt (PyFloat.total (firstn k r)) min_run_time = true \/
     exists v v', stop_hook (firstn k r) v = (Ret false, v')).
Proof.
  intros St self fuel number time_hook stop_hook callback min_run_time
    max_run_time w w' r H.
  apply set_torch_threads_inv in H as (w1 & H & _).
  apply loop_minimal in H as (more & _ & Hmin); [|reflexivity].
  exact Hmin.
Qed.

(** X3.  [_threaded_measurement_loop] raises nothing of its own and wraps
    nothing: when it fails with an exception, the last call it made (to the
    time-hook, the callback or the stop-hook) is the one that raised that
    very exception, and no further call follows. *)
Theorem measurement_loop_propagates_exceptions :
  forall (St : Type) (self : Timer St) (fuel : nat) (number : Z)
    (h_time : St -> outcome float * St)
    (h_stop : list float -> St -> outcome bool * St)
    (h_cb : option (Z -> float -> St -> outcome unit * St))
    (min_run_time : float) (max_run_time : option float)
    (w w' : world St) (e : exn),
  _threaded_measurement_loop fuel self number (ext_time_hook h_time)
    (ext_stop_hook h_stop) min_run_time max_run_time (ext_callback h_cb) w
    = (Raise e, w') ->
  exists ev, last (log w') = Some ev /\ event_raised ev = Some e.
Proof.
  intros St self fuel number h_time h_stop h_cb min_run_time max_run_time
    w w' e H.
  apply set_torch_threads_inv in H as (w1 & H & _ & Hlog & _).
  rewrite Hlog. eapply loop_raises. exact H.
Qed.

(** ** The two sampling strategies *)

Section Strategies.

Context {St : Type}.

Variable collab : Collaborators St.
Variable self : Timer St.

Lemma blocked_autorange_inv fuel callback min_run_time (w w' : world St) m :
  blocked_autorange collab fuel self callback min_run_time w = (Ret m, w') ->
  exists n cs w1 ts,
    _estimate_block_size collab fuel self min_run_time true w
      = (Ret (n, cs), w1) /\
    _threaded_measurement_loop fuel self n (timer_timeit self n)
      (fun _ => ret true) min_run_time None callback w1 = (Ret ts, w') /\
    m = set_cache_speedup cs (_construct_measurement self n ts).
Proof.
  unfold blocked_autorange. unfold bind at 1.
  destruct (_estimate_block_size _ _ _ _ _ _) as [[[n cs]| |] w1];
    try discriminate.
  unfold bind at 1.
  destruct (_threaded_measurement_loop _ _ _ _ _ _ _ _ w1)
    as [[ts| |] w2] eqn:Hloop; try discriminate.
  unfold ret. intros [= <- <-]. eexists _, _, _, _. eauto.
Qed.

Lemma adaptive_autorange_inv fuel threshold max_run_time callback
    min_run_time (w w' : world St) m :
  adaptive_autorange collab fuel self threshold max_run_time callback
    min_run_time w = (Ret m, w') ->
  exists n cs w1 ts,
    _estimate_block_size collab fuel self PyFloat.c0_05 true w
      = (Ret (n, cs), w1) /\
    _threaded_measurement_loop fuel self n (timer_timeit self n)
      (fun times : list float =>
         if (3 <? length times)%nat
         then call_ext (EvConfidence n times)
                (meets_confidence collab
                   (_construct_measurement self n times) threshold)
         else ret false)
      min_run_time max_run_time callback w1 = (Ret ts, w') /\
    m = set_cache_speedup cs (_construct_measurement self n ts).
Proof.
  unfold adaptive_autorange. unfold bind at 1.
  destruct (_estimate_block_size _ _ _ _ _ _) as [[[n cs]| |] w1];
    try discriminate.
  unfold bind at 1.
  destruct (_threaded_measurement_loop _ _ _ _ _ _ _ _ w1)
    as [[ts| |] w2] eqn:Hloop; try discriminate.
  unfold ret. intros [= <- <-]. eexists _, _, _, _. eauto.
Qed.

(** What the estimator returns is a power of ten. *)
Lemma estimate_returns_power_of_ten fuel min_run_time check
    (w w' : world St) n cs :
  _estimate_block_size collab fuel self min_run_time check w
    = (Ret (n, cs), w') ->
  exists k, n = 10 ^ Z.of_nat k.
Proof.
  intros H. apply estimate_inv in H as (ov & un & w1 & _ & H).
  apply set_torch_threads_inv in H as (w2 & H & _).
  apply block_size_returns_candidate in H as (k & _ & -> & _).
  exists k. lia.
Qed.

End Strategies.

(** X4.  A record returned by [blocked_autorange] carries the Timer's
    identity ([stmt], labels, thread count), a [number_per_run] that is a
    power of ten, hence at least 1, and a cache-speedup annotation.  Its
    samples are governed by the duration floor alone: their total is not
    below [min_run_time], while the total of every shorter non-empty prefix
    is below it. *)
Theorem blocked_autorange_record :
  forall (St : Type) (collab : Collaborators St) (self : Timer St)
    (fuel : nat) (callback : option (Z -> float -> M St unit))
    (min_run_time : float) (w w' : world St) (m : Measurement),
  blocked_autorange collab fuel self callback min_run_time w = (Ret m, w') ->
  (exists k, number_per_run m = 10 ^ Z.of_nat k) /\
  1 <= number_per_run m /\
  cache_speedup m <> None /\
  (stmt m = _stmt self /\ label m = _label self /\
   sub_label m = _sub_label self /\ description m = _description self /\
   env m = _env self /\ num_threads m = _num_threads self) /\
  PyFloat.lt (PyFloat.total (times m)) min_run_time = false /\
  (forall k, (0 < k < length (times m))%nat ->
     PyFloat.lt (PyFloat.total (firstn k (times m))) min_run_time = true).
Proof.
  intros St collab self fuel callback min_run_time w w' m H.
  apply blocked_autorange_inv in H as (n & cs & w1 & ts & Hest & Hloop & ->).
  simpl.
  destruct (estimate_returns_power_of_ten _ _ _ _ _ _ _ _ _ Hest) as [k ->].
  split; [eauto|]. split.
  { pose proof (Z.pow_pos_nonneg 10 (Z.of_nat k)). lia. }
  split; [discriminate|]. split; [repeat split|].
  apply set_torch_threads_inv in Hloop as (w2 & Hloop & _).
  split.
  - apply loop_returns in Hloop as (more & _ & _ & Hexit);
      [|reflexivity|discriminate].
    simpl in Hexit. destruct Hexit as [[Hlt _]|Hmax];
      [exact Hlt | discriminate].
  - apply loop_minimal in Hloop as (more & _ & Hmin); [|reflexivity].
    intros j Hj. destruct (Hmin j Hj) as [_ [Hlt|(v & v' & Hv)]];
      [exact Hlt | discriminate].
Qed.

(** X5.  When [adaptive_autorange] returns without the total having
    exceeded a non-zero [max_run_time], it has taken more than three
    samples, their total is not below [min_run_time], and
    [meets_confidence] has answered true on a record made of exactly the
    samples returned, with the Timer's identity and the estimated
    [number]. *)
Theorem adaptive_autorange_confidence :
  forall (St : Type) (collab : Collaborators St) (self : Timer St)
    (fuel : nat) (threshold : float) (max_run_time : option float)
    (callback : option (Z -> float -> M St unit))
    (min_run_time : float) (w w' : world St) (m : Measurement),
  adaptive_autorange collab fuel self threshold max_run_time callback
    min_run_time w = (Ret m, w') ->
  max_run_time_exceeded max_run_time (PyFloat.total (times m)) = false ->
  (3 < length (times m))%nat /\
  PyFloat.lt (PyFloat.total (times m)) min_run_time = false /\
  exists s s',
    meets_confidence collab
      (_construct_measurement self (number_per_run m) (times m)) threshold s
    = (Ret true, s').
Proof.
  intros St collab self fuel threshold max_run_time callback min_run_time
    w w' m H Hmax.
  apply adaptive_autorange_inv in H as (n & cs & w1 & ts & _ & Hloop & ->).
  simpl in *.
  apply set_torch_threads_inv in Hloop as (w2 & Hloop & _).
  apply loop_returns in Hloop as (more & _ & _ & Hexit);
    [|reflexivity|discriminate].
  simpl in Hexit. destruct Hexit as [[Hlt (v & Hv)]|Hmax']; [|congruence].
  destruct (3 <? length ts)%nat eqn:Hlen; [|discriminate].
  apply Nat.ltb_lt in Hlen. split; [exact Hlen|]. split; [exact Hlt|].
  unfold call_ext in Hv.
  destruct (meets_confidence collab _ threshold (ext v)) as [rb s'] eqn:Hm.
  injection Hv as -> _. eauto.
Qed.

(** ** The estimation loop: which candidate it returns, and what with *)

Section EstimatorExtent.

Context {St : Type}.

Variable self : Timer St.
Variable min_run_time : float.
Variable check : bool.
Variable overhead uncached_time : float.

Let loop (fuel : nat) :=
  block_size_while fuel self min_run_time check overhead uncached_time.

(** A candidate returned is the first whose duration passes one of the
    two exit tests. *)
Lemma block_size_returned_is_first_exit fuel :
  forall number cs (w w' : world St) n cs',
  loop fuel number cs w = (Ret (n, cs'), w') ->
  exists k ts,
    n = number * 10 ^ Z.of_nat k /\
    loop_timings self (S k) number (ext w) = Some ts /\
    (forall j t, (j < k)%nat -> nth_error ts j = Some t ->
       block_size_exit overhead min_run_time t = false) /\
    (forall t, nth_error ts k = Some t ->
       block_size_exit overhead min_run_time t = true).
Proof.
  induction fuel as [|fuel IH]; intros number cs w w' n cs'.
  - unfold loop. simpl. discriminate.
  - destruct (_timer self number (ext w)) as [[t| |] s] eqn:Ht.
    + unfold loop. rewrite (block_size_iteration _ _ _ _ _ _ _ _ _ _ _ Ht).
      destruct (update_cache_speedup _ _ _ _ _) as [cs1| |];
        try discriminate.
      fold (block_size_exit overhead min_run_time t).
      destruct (block_size_exit overhead min_run_time t) eqn:Hexit.
      * intros [= <- <- <-]. exists 0%nat, [t]. repeat split.
        -- simpl. lia.
        -- rewrite loop_timings_S, Ht. reflexivity.
        -- intros j t' Hj. lia.
        -- intros t' [= <-]. exact Hexit.
      * intros H. apply IH in H as (k & ts & -> & Hts & Hbefore & Hat).
        change (ext (logged w number (Ret t) s)) with s in Hts.
        exists (S k), (t :: ts). repeat split.
        -- rewrite Nat2Z.inj_succ, Z.pow_succ_r by lia. lia.
        -- rewrite loop_timings_S, Ht, Hts. reflexivity.
        -- intros [|j] t' Hj; simpl.
           ++ intros [= <-]. exact Hexit.
           ++ apply Hbefore. lia.
        -- intros t'. simpl. apply Hat.
    + unfold loop. simpl. unfold bind at 1.
      unfold timer_timeit at 1, call_ext at 1. rewrite Ht. discriminate.
    + unfold loop. simpl. unfold bind at 1.
      unfold timer_timeit at 1, call_ext at 1. rewrite Ht. discriminate.
Qed.

(** Conversely the loop returns the first candidate whose duration
    passes an exit test, when no cache-speedup division faults on the
    way. *)
Lemma block_size_first_exit k :
  forall fuel number cs (w : world St) ts,
  loop_timings self (S k) number (ext w) = Some ts ->
  (forall j t, (j < k)%nat -> nth_error ts j = Some t ->
     block_size_exit overhead min_run_time t = false) ->
  (forall t, nth_error ts k = Some t ->
     block_size_exit overhead min_run_time t = true) ->
  (forall j t cs0, nth_error ts j = Some t ->
     exists cs1, update_cache_speedup check uncached_time t
                   (number * 10 ^ Z.of_nat j) cs0 = Ret cs1) ->
  (k < fuel)%nat ->
  exists cs' w',
    loop fuel number cs w = (Ret (number * 10 ^ Z.of_nat k, cs'), w').
Proof.
  induction k as [|k IH];
    intros fuel number cs w ts Hts Hbefore Hat Hnofault Hfuel;
    (destruct fuel as [|fuel]; [lia|]);
    rewrite loop_timings_S in Hts;
    destruct (_timer self number (ext w)) as [[t| |] s] eqn:Ht;
    try discriminate;
    unfold loop;
    rewrite (block_size_iteration _ _ _ _ _ _ _ _ _ _ _ Ht);
    fold (block_size_exit overhead min_run_time t).
  - injection Hts as <-.
    destruct (Hnofault 0%nat t cs eq_refl) as [cs1 Hcs].
    simpl in Hcs. rewrite Z.mul_1_r in Hcs. rewrite Hcs.
    rewrite (Hat t eq_refl). rewrite Z.mul_1_r. eauto.
  - destruct (loop_timings self (S k) (number * 10) s) as [ts'|] eqn:Hts';
      [|discriminate].
    injection Hts as <-.
    destruct (Hnofault 0%nat t cs eq_refl) as [cs1 Hcs].
    simpl in Hcs. rewrite Z.mul_1_r in Hcs. rewrite Hcs.
    rewrite (Hbefore 0%nat t (Nat.lt_0_succ k) eq_refl).
    edestruct (IH fuel (number * 10) cs1 (logged w number (Ret t) s) ts'
                 Hts') as (cs' & w' & Hrun).
    + intros j t' Hj. apply (Hbefore (S j)). lia.
    + intros t'. apply (Hat t').
    + intros j t' cs0 Hnth.
      destruct (Hnofault (S j) t' cs0 Hnth) as [cs2 H2].
      exists cs2. rewrite <- H2. f_equal.
      rewrite Nat2Z.inj_succ, Z.pow_succ_r by lia. lia.
    + lia.
    + exists cs', w'. unfold loop in Hrun. rewrite Hrun. do 3 f_equal.
      rewrite Nat2Z.inj_succ, Z.pow_succ_r by lia. lia.
Qed.

(** The ratio returned with cache-speedup checking on is the one computed
    in the last iteration, from the last duration measured. *)
Lemma block_size_returned_ratio fuel :
  check = true ->
  forall number cs (w w' : world St) n cs',
  loop fuel number cs w = (Ret (n, cs'), w') ->
  exists t per_call,
    last (timer_events (log w')) = Some (n, Ret t) /\
    PyFloat.truediv_int t n = Ret per_call /\
    PyFloat.eq per_call PyFloat.zero = false /\
    cs' = PrimFloat.div uncached_time per_call.
Proof.
  intros Hcheck.
  induction fuel as [|fuel IH]; intros number cs w w' n cs'.
  - unfold loop. simpl. discriminate.
  - destruct (_timer self number (ext w)) as [[t| |] s] eqn:Ht.
    + unfold loop. rewrite (block_size_iteration _ _ _ _ _ _ _ _ _ _ _ Ht).
      destruct (update_cache_speedup _ _ _ _ _) as [cs1| |] eqn:Hcs;
        try discriminate.
      destruct (_ || _).
      * intros [= <- <- <-]. unfold update_cache_speedup in Hcs.
        rewrite Hcheck in Hcs.
        destruct (PyFloat.truediv_int t number) as [pc| |] eqn:Hpc;
          try discriminate.
        unfold PyFloat.truediv in Hcs.
        destruct (PyFloat.eq pc PyFloat.zero) eqn:Hz; [discriminate|].
        injection Hcs as <-. exists t, pc. repeat split; auto.
        simpl. rewrite timer_events_snoc. apply last_snoc.
      * apply IH.
    + unfold loop. simpl. unfold bind at 1.
      unfold timer_timeit at 1, call_ext at 1. rewrite Ht. discriminate.
    + unfold loop. simpl. unfold bind at 1.
      unfold timer_timeit at 1, call_ext at 1. rewrite Ht. discriminate.
Qed.

(** With checking off the speedup is left as it was, and the loop fails
    only with what the timed callable raised in its last call. *)
Lemma block_size_check_off fuel :
  check = false ->
  forall number cs (w w' : world St) res,
  loop fuel number cs w = (res, w') ->
  match res with
  | Ret (_, cs') => cs' = cs
  | Raise e => exists n, last (log w') = Some (EvTimer n (Raise e))
  | Timeout => True
  end.
Proof.
  intros Hcheck.
  induction fuel as [|fuel IH]; intros number cs w w' res.
  - unfold loop. simpl. intros [= <- <-]. exact I.
  - destruct (_timer self number (ext w)) as [[t|e|] s] eqn:Ht.
    + unfold loop. rewrite (block_size_iteration _ _ _ _ _ _ _ _ _ _ _ Ht).
      replace (update_cache_speedup check uncached_time t number cs)
        with (@Ret float cs)
        by (unfold update_cache_speedup; rewrite Hcheck; reflexivity).
      destruct (_ || _).
      * intros [= <- <-]. reflexivity.
      * apply IH.
    + unfold loop. simpl. unfold bind at 1.
      unfold timer_timeit at 1, call_ext at 1. rewrite Ht.
      intros [= <- <-]. exists number. simpl. apply last_snoc.
    + unfold loop. simpl. unfold bind at 1.
      unfold timer_timeit at 1, call_ext at 1. rewrite Ht.
      intros [= <- <-]. exact I.
Qed.

End EstimatorExtent.

Section OverheadProbes.

Context {St : Type}.
Variable self : Timer St.

(** The overhead probes fail only with what the timed callable raised
    in the last of them. *)
Lemma overhead_probes_raise k :
  forall (w w' : world St) e,
  list_comprehension k (timer_timeit self 0) w = (Raise e, w') ->
  last (log w') = Some (EvTimer 0 (Raise e)).
Proof.
  induction k as [|k IH]; intros w w' e; simpl; [discriminate|].
  unfold bind at 1. unfold timer_timeit at 1, call_ext at 1.
  destruct (_timer self 0 (ext w)) as [[t|e0|] s].
  - unfold bind at 1.
    destruct (list_comprehension k _ _) as [[l|e1|] w1] eqn:Hl;
      try discriminate.
    intros [= <- <-]. eapply IH. exact Hl.
  - intros [= <- <-]. simpl. apply last_snoc.
  - discriminate.
Qed.

End OverheadProbes.

(** X6.  [_estimate_block_size] returns the first candidate of
    [1, 10, 100, ...] whose measured duration passes one of the two exit
    tests (overhead ratio within [1e-4] and duration at least
    [min_run_time / 1000]; or duration beyond [min_run_time] whatever the
    overhead ratio): whenever it returns, every earlier candidate failed
    both tests and the returned one passes; and when such a candidate
    exists and no cache-speedup division faults on the way, it is
    returned as soon as the fuel allows that many steps. *)
Theorem estimate_returns_first_exiting_candidate :
  forall (St : Type) (collab : Collaborators St) (self : Timer St)
    (min_run_time : float) (check : bool) (fuel : nat) (w : world St),
  (forall n cs w',
     _estimate_block_size collab fuel self min_run_time check w
     = (Ret (n, cs), w') ->
     exists ov un w1 k ts,
       block_size_prelude collab self check w = (Ret (ov, un), w1) /\
       n = 10 ^ Z.of_nat k /\
       loop_timings self (S k) 1 (ext w1) = Some ts /\
       (forall j t, (j < k)%nat -> nth_error ts j = Some t ->
          block_size_exit ov min_run_time t = false) /\
       (forall t, nth_error ts k = Some t ->
          block_size_exit ov min_run_time t = true))
  /\
  (forall ov un w1 k ts,
     block_size_prelude collab self check w = (Ret (ov, un), w1) ->
     loop_timings self (S k) 1 (ext w1) = Some ts ->
     (forall j t, (j < k)%nat -> nth_error ts j = Some t ->
        block_size_exit ov min_run_time t = false) ->
     (forall t, nth_error ts k = Some t ->
        block_size_exit ov min_run_time t = true) ->
     (forall j t cs0, nth_error ts j = Some t ->
        exists cs1, update_cache_speedup check un t (10 ^ Z.of_nat j) cs0
                    = Ret cs1) ->
     (k < fuel)%nat ->
     exists cs w',
       _estimate_block_size collab fuel self min_run_time check w
       = (Ret (10 ^ Z.of_nat k, cs), w')).
Proof.
  intros St collab self min_run_time check fuel w. split.
  - intros n cs w' H.
    apply estimate_inv in H as (ov & un & w1 & Hp & H).
    apply set_torch_threads_inv in H as (w2 & H & _).
    apply block_size_returned_is_first_exit
      in H as (k & ts & -> & Hts & Hbefore & Hat).
    exists ov, un, w1, k, ts. rewrite Z.mul_1_l. auto.
  - intros ov un w1 k ts Hp Hts Hbefore Hat Hnofault Hfuel.
    erewrite estimate_via_prelude by exact Hp.
    unfold set_torch_threads.
    edestruct (block_size_first_exit self min_run_time check ov un k
                 fuel 1 PyFloat.zero
                 {| ext := ext w1; torch_threads := _num_threads self;
                    log := log w1 |} ts Hts Hbefore Hat)
      as (cs' & w' & Hrun); [|exact Hfuel|].
    + intros j t cs0 Hnth. rewrite Z.mul_1_l. now apply Hnofault.
    + rewrite Hrun, Z.mul_1_l. eauto.
Qed.

(** X7.  With cache-speedup checking off, [_estimate_block_size] computes
    no ratio and raises nothing of its own: the speedup it returns is
    [0.0], and when it fails the last call it made is a call to the timed
    callable that raised that very exception. *)
Theorem estimate_without_cache_check :
  forall (St : Type) (collab : Collaborators St) (self : Timer St)
    (min_run_time : float) (fuel : nat) (w w' : world St)
    (res : outcome (Z * float)),
  _estimate_block_size collab fuel self min_run_time false w = (res, w') ->
  match res with
  | Ret (_, cs) => cs = PyFloat.zero
  | Raise e => exists n, last (log w') = Some (EvTimer n (Raise e))
  | Timeout => True
  end.
Proof.
  intros St collab self min_run_time fuel w w' res.
  unfold _estimate_block_size. unfold bind at 1.
  destruct (list_comprehension 5 _ w) as [[samples|e|] w0] eqn:Hprobes.
  - unfold bind at 1. unfold ret at 1. intros H.
    apply set_torch_threads_inv in H as (w1 & H & _ & Hlog & _).
    apply block_size_check_off in H; [|reflexivity].
    rewrite Hlog. exact H.
  - intros [= <- <-]. exists 0. eapply overhead_probes_raise. exact Hprobes.
  - intros [= <- <-]. exact I.
Qed.

(** X8.  With cache-speedup checking on, the speedup [_estimate_block_size]
    returns is the ratio of the last iteration:
    [uncached_time / (time_taken / number)] for the duration measured last,
    on the returned [number], that per-call time being non-zero. *)
Theorem estimate_returns_last_ratio :
  forall (St : Type) (collab : Collaborators St) (self : Timer St)
    (min_run_time : float) (fuel : nat) (w w' : world St) (n : Z) (cs : float),
  _estimate_block_size collab fuel self min_run_time true w
  = (Ret (n, cs), w') ->
  exists ov un w1 t per_call,
    block_size_prelude collab self true w = (Ret (ov, un), w1) /\
    last (timer_events (log w')) = Some (n, Ret t) /\
    PyFloat.truediv_int t n = Ret per_call /\
    PyFloat.eq per_call PyFloat.zero = false /\
    cs = PrimFloat.div un per_call.
Proof.
  intros St collab self min_run_time fuel w w' n cs H.
  apply estimate_inv in H as (ov & un & w1 & Hp & H).
  apply set_torch_threads_inv in H as (w2 & H & _ & Hlog & _).
  apply block_size_returned_ratio in H as (t & pc & Hlast & Hpc & Hz & ->);
    [|reflexivity].
  exists ov, un, w1, t, pc. rewrite Hlog. auto.
Qed.

(** ** Construction: what the Timer's environment holds *)

Section ConstructionOutcome.

Import Globals.

Variable compile : value -> string -> outcome unit.
Variables (setup timer : value).
Variables (label sub_label description env : option string).
Variable num_threads : Z.

(** [__init__] on a [str] statement, once the caller's entries [d] have
    been read: a fresh dict gets them with [torch], and [timeit.Timer]
    decides the outcome. *)
Lemma init_on_str s globals d (h : gmap loc object) :
  dict_of_globals globals h = Ret d ->
  let l := fresh (dom h) in
  let d1 := setdefault "torch" torch d in
  __init__ compile (VStr s) setup timer globals label sub_label description
    env num_threads h =
  match compile setup s with
  | Ret _ =>
    (Ret {| t_stmt := s; t_label := label; t_sub_label := sub_label;
            t_description := description; t_env := env;
            t_num_threads := num_threads; _timer_setup := setup;
            _timer_clock := timer; _timer_globals := l |},
     <[l := ODict (setdefault "__builtins__" builtins d1)]> h)
  | Raise e => (Raise e, <[l := ODict d1]> h)
  | Timeout => (Timeout, <[l := ODict d1]> h)
  end.
Proof.
  intros Hd l d1. unfold __init__, alloc, timeit_Timer. rewrite Hd.
  fold l d1. destruct (compile setup s); try reflexivity.
  rewrite lookup_insert_eq, insert_insert_eq. reflexivity.
Qed.

Lemma dom_setdefault k v (d : gmap string value) :
  dom (setdefault k v d) = dom d ∪ {[ k ]}.
Proof.
  unfold setdefault. destruct (d !! k) as [v0|] eqn:Hk.
  - apply set_eq. intros x. rewrite elem_of_union, elem_of_singleton.
    split; [auto|]. intros [Hx| ->]; [exact Hx|]. apply elem_of_dom. eauto.
  - rewrite dom_insert_L. apply (comm_L (∪)).
Qed.

Lemma setdefault_binds k v (d : gmap string value) :
  d !! k = None -> setdefault k v d !! k = Some v.
Proof. intros Hk. unfold setdefault. rewrite Hk. apply lookup_insert_eq. Qed.

End ConstructionOutcome.

(** X9.  Given [globals = None] or a dict, and a [str] statement that
    [timeit.Timer] compiles together with the setup, [__init__] succeeds
    and the dict the Timer gets holds exactly the caller's names plus
    [torch] and [__builtins__]: every caller binding is kept as it is, and
    [torch] and [__builtins__] are bound to the torch module and to the
    interpreter's builtins namespace only when the caller did not bind
    them. *)
Theorem init_environment_names :
  forall (compile : Globals.value -> string -> outcome unit)
    (s : string) (setup timer : Globals.value)
    (globals : option Globals.loc) (d : gmap string Globals.value)
    (label sub_label description env : option string) (num_threads : Z)
    (h : gmap Globals.loc Globals.object),
  (globals = None /\ d = ∅) \/
  (exists g, globals = Some g /\ h !! g = Some (Globals.ODict d)) ->
  compile setup s = Ret tt ->
  exists t h' d',
    Globals.__init__ compile (Globals.VStr s) setup timer globals label
      sub_label description env num_threads h = (Ret t, h') /\
    h' !! Globals._timer_globals t = Some (Globals.ODict d') /\
    dom d' = dom d ∪ {[ "torch" ]} ∪ {[ "__builtins__" ]} /\
    (forall k v, d !! k = Some v -> d' !! k = Some v) /\
    (d !! "torch" = None -> d' !! "torch" = Some Globals.torch) /\
    (d !! "__builtins__" = None ->
     d' !! "__builtins__" = Some Globals.builtins) /\
    Globals.t_stmt t = s.
Proof.
  intros compile s setup timer globals d label sub_label description env
    num_threads h Hg Hc.
  assert (Hd : Globals.dict_of_globals globals h = Ret d).
  { destruct Hg as [[-> ->]|(g & -> & Hg)]; simpl; [reflexivity|].
    rewrite Hg. reflexivity. }
  rewrite (init_on_str compile setup timer label sub_label description env
             num_threads s globals d h Hd), Hc.
  eexists _, _, _. split; [reflexivity|]. simpl.
  split; [apply lookup_insert_eq|].
  split; [rewrite !dom_setdefault; reflexivity|].
  split; [intros k v Hk; now apply setdefault_keeps, setdefault_keeps|].
  split; [|split; [|reflexivity]].
  - intros Ht. apply (setdefault_keeps _ _ "__builtins__").
    now apply setdefault_binds.
  - intros Hb. apply setdefault_binds.
    unfold Globals.setdefault. destruct (d !! "torch"); [exact Hb|].
    rewrite lookup_insert_ne by discriminate. exact Hb.
Qed.

(** X10.  With [globals] being [None] or a dict: however [__init__] ends
    (with a Timer, with [ValueError] for a statement that is not a [str],
    or with what [timeit.Timer] raised on code that does not compile),
    every object the caller's heap held is left as it was, the caller's
    dict included: construction only ever writes to the dict it has just
    allocated.  And on a [str] statement an exception raised by the
    compilation is the exception [__init__] raises. *)
Theorem init_leaves_caller_heap :
  forall (compile : Globals.value -> string -> outcome unit)
    (stmt setup timer : Globals.value) (globals : option Globals.loc)
    (label sub_label description env : option string) (num_threads : Z)
    (h : gmap Globals.loc Globals.object),
  globals = None \/
  (exists g d, globals = Some g /\ h !! g = Some (Globals.ODict d)) ->
  (forall l0 o, h !! l0 = Some o ->
     snd (Globals.__init__ compile stmt setup timer globals label sub_label
            description env num_threads h) !! l0 = Some o) /\
  (forall s e,
     stmt = Globals.VStr s ->
     compile setup s = Raise e ->
     fst (Globals.__init__ compile stmt setup timer globals label sub_label
            description env num_threads h) = Raise e).
Proof.
  intros compile stmt setup timer globals label sub_label description env
    num_threads h Hg.
  assert (Hd : exists d, Globals.dict_of_globals globals h = Ret d).
  { destruct Hg as [->|(g & d & -> & Hg)]; simpl; [eauto|].
    rewrite Hg. eauto. }
  destruct Hd as [d Hd]. split.
  - intros l0 o Hl0.
    destruct stmt as [n|s|name|r]; try exact Hl0.
    rewrite (init_on_str compile setup timer label sub_label description env
               num_threads s globals d h Hd).
    assert (Hne : fresh (dom h) <> l0).
    { intros E. pose proof (is_fresh (dom h)) as Hf. rewrite E in Hf.
      apply Hf, elem_of_dom. eauto. }
    destruct (compile setup s); simpl;
      rewrite lookup_insert_ne by exact Hne; exact Hl0.
  - intros s e -> Hc.
    rewrite (init_on_str compile setup timer label sub_label description env
               num_threads s globals d h Hd), Hc.
    reflexivity.
Qed.

(** ** Witnesses *)

(** X1, witness: two samples, a callback, a stop-hook that agrees on two
    samples. *)
Lemma measurement_loop_call_order_witness :
  exists w' new,
    _threaded_measurement_loop 5 Scenario.zero_timer 7
      (ext_time_hook (Scenario.const_time PyFloat.c0_01))
      (ext_stop_hook (Scenario2.stop_after 2)) PyFloat.zero None
      (ext_callback (Some Scenario2.quiet_callback)) Scenario.w0
    = (Ret [PyFloat.c0_01; PyFloat.c0_01], w') /\
    map fst new = [PyFloat.c0_01; PyFloat.c0_01] /\
    log w' = log Scenario.w0 ++ run_events true 7 [] new.
Proof.
  eexists. 
  assert (H : _threaded_measurement_loop 5 Scenario.zero_timer 7
      (ext_time_hook (Scenario.const_time PyFloat.c0_01))
      (ext_stop_hook (Scenario2.stop_after 2)) PyFloat.zero None
      (ext_callback (Some Scenario2.quiet_callback)) Scenario.w0
    = (Ret [PyFloat.c0_01; PyFloat.c0_01], _)) by (vm_compute; reflexivity).
  destruct (measurement_loop_call_order nat _ _ _ _ _ _ _ _ _ _ _ H)
    as (new & Hnew & Hlog).
  exists new. split; [exact H|]. split; [exact Hnew | exact Hlog].
Defined.

(** X2, witness: in the 10ms scenario the total after five samples is
    still below the floor. *)
Lemma measurement_loop_stops_at_first_exit_witness :
  max_run_time_exceeded None
    (PyFloat.total (firstn 5 (List.repeat PyFloat.c0_01 20))) = false /\
  (PyFloat.lt (PyFloat.total (firstn 5 (List.repeat PyFloat.c0_01 20)))
     PyFloat.c0_2 = true \/
   exists v v' : world nat,
     ext_stop_hook (Scenario.const_stop true)
       (firstn 5 (List.repeat PyFloat.c0_01 20)) v = (Ret false, v')).
Proof.
  eapply (measurement_loop_stops_at_first_exit nat Scenario.zero_timer 30 1
            (ext_time_hook (Scenario.const_time PyFloat.c0_01))
            (ext_stop_hook (Scenario.const_stop true)) None PyFloat.c0_2 None
            Scenario.w0 _ (List.repeat PyFloat.c0_01 20)).
  - vm_compute. reflexivity.
  - simpl. lia.
Defined.

(** X3, witness: the time-hook raises at its third call. *)
Lemma measurement_loop_propagates_exceptions_witness :
  exists w' ev,
    _threaded_measurement_loop 9 Scenario.zero_timer 1
      (ext_time_hook Scenario2.failing_time)
      (ext_stop_hook (Scenario.const_stop false)) PyFloat.c0_2 None None
      Scenario.w0 = (Raise (ExternalError "RuntimeError"), w') /\
    last (log w') = Some ev /\
    event_raised ev = Some (ExternalError "RuntimeError").
Proof.
  eexists.
  assert (H : _threaded_measurement_loop 9 Scenario.zero_timer 1
      (ext_time_hook Scenario2.failing_time)
      (ext_stop_hook (Scenario.const_stop false)) PyFloat.c0_2 None None
      Scenario.w0 = (Raise (ExternalError "RuntimeError"), _))
    by (vm_compute; reflexivity).
  destruct (measurement_loop_propagates_exceptions nat _ _ _ _ _ None _ _ _ _ _ H)
    as (ev & Hlast & Hev).
  exists ev. split; [exact H|]. split; [exact Hlast | exact Hev].
Defined.

(** X4, witness: the 10ms callable under [blocked_autorange]. *)
Lemma blocked_autorange_record_witness :
  exists m w',
    blocked_autorange Scenario.quiet 30 Scenario.ten_ms_timer None
      PyFloat.c0_2 Scenario.w0 = (Ret m, w') /\
    1 <= number_per_run m /\ cache_speedup m <> None /\
    PyFloat.lt (PyFloat.total (times m)) PyFloat.c0_2 = false.
Proof.
  eexists. eexists.
  assert (H : blocked_autorange Scenario.quiet 30 Scenario.ten_ms_timer None
      PyFloat.c0_2 Scenario.w0 = (Ret _, _)) by (vm_compute; reflexivity).
  split; [exact H|].
  destruct (blocked_autorange_record nat _ _ _ _ _ _ _ _ H)
    as (_ & H1 & H2 & _ & H3 & _).
  split; [exact H1|]. split; [exact H2 | exact H3].
Defined.

(** X5, witness: the 10ms callable under [adaptive_autorange], with a
    confidence test that always agrees: four samples. *)
Lemma adaptive_autorange_confidence_witness :
  exists m w',
    adaptive_autorange Scenario.quiet 30 Scenario.ten_ms_timer
      Scenario2.tenth (Some Scenario2.ten_seconds) None PyFloat.c0_01
      Scenario.w0 = (Ret m, w') /\
    length (times m) = 4%nat /\ (3 < length (times m))%nat.
Proof.
  eexists. eexists.
  assert (H : adaptive_autorange Scenario.quiet 30 Scenario.ten_ms_timer
      Scenario2.tenth (Some Scenario2.ten_seconds) None PyFloat.c0_01
      Scenario.w0 = (Ret _, _)) by (vm_compute; reflexivity).
  split; [exact H|]. split; [reflexivity|].
  refine (proj1 (adaptive_autorange_confidence nat _ _ _ _ _ _ _ _ _ _ H _)).
  vm_compute. reflexivity.
Defined.

(** X6, witness: a callable whose overhead is as large as its work; the
    overhead ratio is 1, far from [1e-4], yet the first candidate is
    returned because its duration is beyond [min_run_time]. *)
Lemma estimate_returns_first_exiting_candidate_witness :
  PyFloat.le (PyFloat.np_truediv PyFloat.c0_01 PyFloat.c0_01)
    PyFloat.tenth_milli = false /\
  exists cs w',
    _estimate_block_size Scenario.quiet 3 Scenario2.flat_timer
      Scenario2.one_ms false Scenario.w0 = (Ret (1, cs), w').
Proof.
  split; [vm_compute; reflexivity|].
  change 1 with (10 ^ Z.of_nat 0).
  eapply (proj2 (estimate_returns_first_exiting_candidate nat Scenario.quiet
                   Scenario2.flat_timer Scenario2.one_ms false 3
                   Scenario.w0));
    try (vm_compute; reflexivity).
  - intros j t Hj. lia.
  - intros t. simpl. intros H. inversion H. subst. vm_compute. reflexivity.
  - intros j t cs0 _. eexists. reflexivity.
  - lia.
Defined.

(** X7, witness: the timed callable raises in the third overhead probe. *)
Lemma estimate_without_cache_check_witness :
  exists w' n,
    _estimate_block_size Scenario.quiet 3 Scenario2.failing_timer
      PyFloat.c0_2 false Scenario.w0
    = (Raise (ExternalError "RuntimeError"), w') /\
    last (log w') = Some (EvTimer n (Raise (ExternalError "RuntimeError"))).
Proof.
  eexists.
  assert (H : _estimate_block_size Scenario.quiet 3 Scenario2.failing_timer
      PyFloat.c0_2 false Scenario.w0
    = (Raise (ExternalError "RuntimeError"), _)) by (vm_compute; reflexivity).
  destruct (estimate_without_cache_check nat _ _ _ _ _ _ _ H) as [n Hn].
  exists n. split; [exact H | exact Hn].
Defined.

(** X8, witness: the 10ms callable; the speedup is the uncached 10ms over
    the 10ms per call. *)
Lemma estimate_returns_last_ratio_witness :
  exists cs w' un t per_call,
    _estimate_block_size Scenario.quiet 3 Scenario.ten_ms_timer
      PyFloat.c0_2 true Scenario.w0 = (Ret (1, cs), w') /\
    last (timer_events (log w')) = Some (1, Ret t) /\
    PyFloat.truediv_int t 1 = Ret per_call /\
    cs = PrimFloat.div un per_call.
Proof.
  eexists. eexists.
  assert (H : _estimate_block_size Scenario.quiet 3 Scenario.ten_ms_timer
      PyFloat.c0_2 true Scenario.w0 = (Ret (1, _), _))
    by (vm_compute; reflexivity).
  destruct (estimate_returns_last_ratio nat _ _ _ _ _ _ _ _ H)
    as (ov & un & w1 & t & pc & _ & Hlast & Hpc & _ & Hcs).
  exists un, t, pc. split; [exact H|].
  split; [exact Hlast|]. split; [exact Hpc | exact Hcs].
Defined.

(** X9, witness: the caller's environment binding [x]. *)
Lemma init_environment_names_witness :
  exists t h' d',
    Globals.__init__ Scenario.accepts_all Scenario.pass Scenario.pass
      Scenario.default_timer (Some Scenario.caller_globals)
      None None None None 1 Scenario.caller_heap = (Ret t, h') /\
    h' !! Globals._timer_globals t = Some (Globals.ODict d') /\
    dom d' = dom ({[ "x" := Globals.VRef Scenario.shared_list ]}
                    : gmap string Globals.value)
             ∪ {[ "torch" ]} ∪ {[ "__builtins__" ]}.
Proof.
  destruct (init_environment_names Scenario.accepts_all "pass" Scenario.pass
              Scenario.default_timer (Some Scenario.caller_globals)
              {[ "x" := Globals.VRef Scenario.shared_list ]}
              None None None None 1 Scenario.caller_heap)
    as (t & h' & d' & H1 & H2 & H3 & _).
  - right. exists Scenario.caller_globals. split; reflexivity.
  - reflexivity.
  - exists t, h', d'. split; [exact H1|]. split; [exact H2 | exact H3].
Defined.

(** X10, witness: a statement that does not compile; the caller's dict and
    list are as before and the compiler's exception comes out. *)
Lemma init_leaves_caller_heap_witness :
  snd (Globals.__init__ Scenario2.rejects_all Scenario.pass Scenario.pass
         Scenario.default_timer (Some Scenario.caller_globals)
         None None None None 1 Scenario.caller_heap)
    !! Scenario.shared_list = Some (Globals.OList [Globals.VInt 1]) /\
  fst (Globals.__init__ Scenario2.rejects_all Scenario.pass Scenario.pass
         Scenario.default_timer (Some Scenario.caller_globals)
         None None None None 1 Scenario.caller_heap)
  = Raise (ExternalError "SyntaxError").
Proof.
  destruct (init_leaves_caller_heap Scenario2.rejects_all Scenario.pass
              Scenario.pass Scenario.default_timer
              (Some Scenario.caller_globals) None None None None 1
              Scenario.caller_heap) as [Hframe Hraise].
  - right. eexists _, _. split; reflexivity.
  - split.
    + apply Hframe. reflexivity.
    + eapply Hraise; reflexivity.
Defined.

(** ** What the strategies call *)

Section CallsMade.

Context {St : Type}.

Variable collab : Collaborators St.
Variable self : Timer St.

Lemma confidence_calls_app l1 l2 :
  confidence_calls (l1 ++ l2) = confidence_calls l1 ++ confidence_calls l2.
Proof. apply flat_map_app. Qed.

Lemma timer_events_app l1 l2 :
  timer_events (l1 ++ l2) = timer_events l1 ++ timer_events l2.
Proof. apply flat_map_app. Qed.

Lemma call_ext_log {A} (ev : outcome A -> event)
    (f : St -> outcome A * St) (w w' : world St) r :
  call_ext ev f w = (r, w') -> log w' = log w ++ [ev r].
Proof.
  unfold call_ext. destruct (f (ext w)) as [r0 s].
  intros [= <- <-]. reflexivity.
Qed.

(** The overhead probes: [k] calls with zero repetitions. *)
Lemma overhead_probes_log k :
  forall (w w' : world St) l,
  list_comprehension k (timer_timeit self 0) w = (Ret l, w') ->
  length l = k /\
  map fst (timer_events (log w'))
  = map fst (timer_events (log w)) ++ List.repeat 0 k.
Proof.
  induction k as [|k IH]; intros w w' l; simpl.
  - unfold ret. intros [= <- <-]. now rewrite app_nil_r.
  - unfold bind at 1.
    destruct (timer_timeit self 0 w) as [[t| |] w1] eqn:Ht;
      try discriminate.
    apply call_ext_log in Ht.
    unfold bind at 1.
    destruct (list_comprehension k _ w1) as [[l1| |] w2] eqn:Hl;
      try discriminate.
    unfold ret. intros [= <- <-].
    apply IH in Hl as [Hlen Hlog]. split; [simpl; lia|].
    rewrite Hlog, Ht, timer_events_app, map_app, <- app_assoc.
    reflexivity.
Qed.

(** The cache probe: one call with a single repetition. *)
Lemma uncached_runtime_log (w w' : world St) u :
  _measure_uncached_runtime collab self w = (Ret u, w') ->
  map fst (timer_events (log w')) = map fst (timer_events (log w)) ++ [1].
Proof.
  unfold _measure_uncached_runtime. unfold bind at 1.
  destruct (call_ext _ _ w) as [[x| |] w1] eqn:H1; try discriminate.
  apply call_ext_log in H1. unfold bind at 1.
  destruct (call_ext _ _ w1) as [[y| |] w2] eqn:H2; try discriminate.
  apply call_ext_log in H2. intros H3. apply call_ext_log in H3.
  rewrite H3, H2, H1, !timer_events_app, !map_app. simpl.
  now rewrite !app_nil_r.
Qed.

Lemma prelude_log check (w w1 : world St) ov un :
  block_size_prelude collab self check w = (Ret (ov, un), w1) ->
  map fst (timer_events (log w1))
  = map fst (timer_events (log w))
    ++ [0; 0; 0; 0; 0] ++ (if check then [1] else []).
Proof.
  unfold block_size_prelude. unfold bind at 1.
  destruct (list_comprehension 5 _ w) as [[samples| |] w0] eqn:Hp;
    try discriminate.
  apply overhead_probes_log in Hp as [_ Hp]. unfold bind at 1.
  destruct check.
  - destruct (_measure_uncached_runtime collab self w0) as [[u| |] w2] eqn:Hu;
      try discriminate.
    apply uncached_runtime_log in Hu.
    unfold ret. intros [= <- <- <-]. rewrite Hu, Hp, <- app_assoc.
    reflexivity.
  - unfold ret. intros [= <- <- <-]. rewrite Hp. simpl. reflexivity.
Qed.

Lemma callback_keeps_timer_events number h_cb t (w w1 : world St) r :
  run_callback (ext_callback h_cb) number t w = (r, w1) ->
  timer_events (log w1) = timer_events (log w).
Proof.
  destruct h_cb as [cb|]; simpl.
  - intros H%call_ext_log. rewrite H, timer_events_app. simpl.
    apply app_nil_r.
  - unfold ret. intros [= <- <-]. reflexivity.
Qed.

(** The sampling loop of [blocked_autorange]: one call to the timed
    callable per sample, each with [number] repetitions. *)
Lemma blocked_loop_log number h_cb min_run_time max_run_time fuel :
  forall total_time can_stop samples (w w' : world St) r,
  measurement_while fuel number (timer_timeit self number)
    (fun _ => ret true) min_run_time max_run_time (ext_callback h_cb)
    total_time can_stop samples w = (Ret r, w') ->
  exists new,
    r = samples ++ new /\
    timer_events (log w')
    = timer_events (log w) ++ map (fun t => (number, Ret t)) new.
Proof.
  induction fuel as [|fuel IH]; intros total_time can_stop samples w w' r.
  - simpl. destruct (_ || _); [discriminate|].
    intros [= <- <-]. exists []. simpl. now rewrite !app_nil_r.
  - destruct (PyFloat.lt total_time min_run_time || negb can_stop) eqn:Hc.
    + intros H.
      apply loop_iteration in H
        as (t & u & b & w1 & w2 & w3 & Ht & Hcb & Hs & H); [|exact Hc].
      apply call_ext_log in Ht. apply callback_keeps_timer_events in Hcb.
      unfold ret in Hs. injection Hs as _ <-.
      assert (Hlog : timer_events (log w2)
                     = timer_events (log w) ++ [(number, Ret t)])
        by (rewrite Hcb, Ht, timer_events_app; reflexivity).
      destruct (max_run_time_exceeded _ _).
      * destruct H as [-> ->]. exists [t]. split; [reflexivity|].
        exact Hlog.
      * apply IH in H as (new & -> & Hl).
        exists (t :: new). rewrite <- app_assoc. split; [reflexivity|].
        rewrite Hl, Hlog, <- app_assoc. reflexivity.
    + simpl. rewrite Hc. intros [= <- <-].
      exists []. simpl. now rewrite !app_nil_r.
Qed.

End CallsMade.

(** X11.  The timed callable is called by [_estimate_block_size] with, in
    this order: zero repetitions five times (the overhead probes), one
    repetition once if cache-speedup checking is on (the uncached run),
    then the candidates [1, 10, ..., number] up to the number returned,
    once each, and nothing else. *)
Theorem estimate_calls_made :
  forall (St : Type) (collab : Collaborators St) (self : Timer St)
    (min_run_time : float) (check : bool) (fuel : nat) (w w' : world St)
    (n : Z) (cs : float),
  _estimate_block_size collab fuel self min_run_time check w
  = (Ret (n, cs), w') ->
  exists k,
    n = 10 ^ Z.of_nat k /\
    map fst (timer_events (log w'))
    = map fst (timer_events (log w))
      ++ [0; 0; 0; 0; 0] ++ (if check then [1] else []) ++ candidates (S k).
Proof.
  intros St collab self min_run_time check fuel w w' n cs H.
  apply estimate_inv in H as (ov & un & w1 & Hp & H).
  apply prelude_log in Hp.
  apply set_torch_threads_inv in H as (w2 & H & _ & Hlog & _).
  apply block_size_returns_candidate in H as (k & _ & -> & Hl).
  exists k. split; [lia|].
  rewrite Hlog, Hl. simpl log. rewrite Hp, <- !app_assoc.
  do 3 f_equal. unfold candidates. apply map_ext. intros j. lia.
Qed.

(** X12.  Every sample of a record returned by [blocked_autorange] is the
    duration the timed callable reported for one block of [number_per_run]
    repetitions: after the estimation, the timed callable is called once
    per sample, each time with the returned [number_per_run], and [times]
    lists what those calls returned, in order. *)
Theorem blocked_autorange_samples_are_blocks :
  forall (St : Type) (collab : Collaborators St) (self : Timer St)
    (fuel : nat) (h_cb : option (Z -> float -> St -> outcome unit * St))
    (min_run_time : float) (w w' : world St) (m : Measurement),
  blocked_autorange collab fuel self (ext_callback h_cb) min_run_time w
  = (Ret m, w') ->
  exists cs w1,
    _estimate_block_size collab fuel self min_run_time true w
    = (Ret (number_per_run m, cs), w1) /\
    timer_events (log w')
    = timer_events (log w1)
      ++ map (fun t => (number_per_run m, Ret t)) (times m).
Proof.
  intros St collab self fuel h_cb min_run_time w w' m H.
  apply blocked_autorange_inv in H as (n & cs & w1 & ts & Hest & Hloop & ->).
  simpl. exists cs, w1. split; [exact Hest|].
  apply set_torch_threads_inv in Hloop as (w2 & Hloop & _ & Hlog & _).
  apply blocked_loop_log in Hloop as (new & -> & Hl).
  rewrite Hlog, Hl. reflexivity.
Qed.

Section ConfidenceCalls.

Context {St : Type}.

Lemma coe_ret {A} (a : A) : consults_on_enough (@ret St A a).
Proof. intros w. exists []. simpl. now rewrite app_nil_r. Qed.

Lemma coe_lift {A} (r : outcome A) : consults_on_enough (@lift_outcome St A r).
Proof. intros w. exists []. simpl. now rewrite app_nil_r. Qed.

Lemma coe_timeout {A} : consults_on_enough (@timeout St A).
Proof. intros w. exists []. simpl. now rewrite app_nil_r. Qed.

Lemma coe_bind {A B} (c : M St A) (k : A -> M St B) :
  consults_on_enough c -> (forall a, consults_on_enough (k a)) ->
  consults_on_enough (bind c k).
Proof.
  intros Hc Hk w. destruct (Hc w) as (l1 & H1 & F1). unfold bind.
  destruct (c w) as [[a| |] w1]; simpl in *; eauto.
  destruct (Hk a w1) as (l2 & H2 & F2).
  exists (l1 ++ l2). rewrite H2, H1, <- app_assoc.
  split; [reflexivity | now apply Forall_app].
Qed.

Lemma coe_scope {A} n (c : M St A) :
  consults_on_enough c -> consults_on_enough (set_torch_threads n c).
Proof.
  intros Hc w. unfold set_torch_threads.
  destruct (Hc {| ext := ext w; torch_threads := n; log := log w |})
    as (l & H & F).
  destruct (c _) as [r w1]. simpl in *. eauto.
Qed.

(** A call that is not a call to [meets_confidence]. *)
Lemma coe_call_other {A} (ev : outcome A -> event)
    (f : St -> outcome A * St) :
  (forall r, confidence_calls [ev r] = []) ->
  consults_on_enough (call_ext ev f).
Proof.
  intros Hev w. unfold call_ext. destruct (f (ext w)) as [r s]. simpl.
  exists []. rewrite confidence_calls_app, Hev. split; [reflexivity|].
  constructor.
Qed.

Lemma coe_callback h_cb number t :
  @consults_on_enough St unit
    (run_callback (ext_callback h_cb) number t).
Proof.
  destruct h_cb as [cb|]; simpl; [|apply coe_ret].
  apply coe_call_other. reflexivity.
Qed.

Variable collab : Collaborators St.
Variable self : Timer St.

Lemma coe_timer number :
  @consults_on_enough St float (timer_timeit self number).
Proof. apply coe_call_other. reflexivity. Qed.

Lemma coe_probes k :
  @consults_on_enough St (list float)
    (list_comprehension k (timer_timeit self 0)).
Proof.
  induction k as [|k IH]; simpl; [apply coe_ret|].
  apply coe_bind; [apply coe_timer|]. intros x.
  apply coe_bind; [exact IH|]. intros xs. apply coe_ret.
Qed.

Lemma coe_block_size_while min_run_time check overhead uncached_time fuel :
  forall number cs,
  @consults_on_enough St (Z * float)
    (block_size_while fuel self min_run_time check overhead uncached_time
       number cs).
Proof.
  induction fuel as [|fuel IH]; intros number cs; simpl;
    [apply coe_timeout|].
  apply coe_bind; [apply coe_timer|]. intros t.
  apply coe_bind; [apply coe_lift|]. intros cs1.
  destruct (overhead_negligible _ _ _); [apply coe_ret|].
  destruct (PyFloat.gt _ _); [apply coe_ret | apply IH].
Qed.

Lemma coe_estimate fuel min_run_time check :
  @consults_on_enough St (Z * float)
    (_estimate_block_size collab fuel self min_run_time check).
Proof.
  unfold _estimate_block_size.
  apply coe_bind; [apply coe_probes|]. intros samples.
  apply coe_bind.
  - destruct check; [|apply coe_ret].
    unfold _measure_uncached_runtime.
    apply coe_bind; [apply coe_call_other; reflexivity|]. intros _.
    apply coe_bind; [apply coe_call_other; reflexivity|]. intros _.
    apply coe_timer.
  - intros u. apply coe_scope, coe_block_size_while.
Qed.

(** The stop-hook of [adaptive_autorange]. *)
Lemma coe_stop_hook number threshold (samples : list float) :
  @consults_on_enough St bool
    (if (3 <? length samples)%nat
     then call_ext (EvConfidence number samples)
            (meets_confidence collab
               (_construct_measurement self number samples) threshold)
     else @ret St bool false).
Proof.
  destruct (3 <? length samples)%nat eqn:Hlen; [|apply coe_ret].
  apply Nat.ltb_lt in Hlen. intros w. unfold call_ext.
  destruct (meets_confidence _ _ _ _) as [r s]. simpl.
  exists [samples]. rewrite confidence_calls_app. simpl.
  split; [reflexivity | constructor; [exact Hlen | constructor]].
Qed.

Lemma coe_measurement_while number time_hook stop_hook h_cb
    min_run_time max_run_time fuel :
  @consults_on_enough St float time_hook ->
  (forall samples, @consults_on_enough St bool (stop_hook samples)) ->
  forall total_time can_stop samples,
  @consults_on_enough St (list float)
    (measurement_while fuel number time_hook stop_hook min_run_time
       max_run_time (ext_callback h_cb) total_time can_stop samples).
Proof.
  intros Ht Hs.
  induction fuel as [|fuel IH]; intros total_time can_stop samples; simpl;
    (destruct (_ || _); [|apply coe_ret]); [apply coe_timeout|].
  apply coe_bind; [exact Ht|]. intros t.
  apply coe_bind; [apply coe_callback|]. intros _.
  apply coe_bind; [apply Hs|]. intros b.
  destruct (max_run_time_exceeded _ _); [apply coe_ret | apply IH].
Qed.

End ConfidenceCalls.

(** X13.  [adaptive_autorange] never asks [meets_confidence] about a
    record of three samples or fewer: whatever the world it starts from and
    however it ends (return, exception, or still running), every call to
    [meets_confidence] it has made was on a record of more than three
    samples. *)
Theorem adaptive_autorange_consults_on_enough :
  forall (St : Type) (collab : Collaborators St) (self : Timer St)
    (fuel : nat) (threshold : float) (max_run_time : option float)
    (h_cb : option (Z -> float -> St -> outcome unit * St))
    (min_run_time : float) (w : world St),
  exists l,
    confidence_calls
      (log (snd (adaptive_autorange collab fuel self threshold max_run_time
                   (ext_callback h_cb) min_run_time w)))
    = confidence_calls (log w) ++ l /\
    Forall (fun samples => (3 < length samples)%nat) l.
Proof.
  intros St collab self fuel threshold max_run_time h_cb min_run_time.
  change (@consults_on_enough St Measurement
            (adaptive_autorange collab fuel self threshold max_run_time
               (ext_callback h_cb) min_run_time)).
  unfold adaptive_autorange.
  apply coe_bind; [apply coe_estimate|]. intros [number cs].
  apply coe_bind; [|intros ts; apply coe_ret].
  unfold _threaded_measurement_loop. apply coe_scope.
  apply coe_measurement_while; [apply coe_timer|].
  intros samples. apply coe_stop_hook.
Qed.

(** X11, witness: the 10ms callable, estimated with cache-speedup
    checking on: five probes, the uncached run, one candidate. *)
Lemma estimate_calls_made_witness :
  exists cs w' k,
    _estimate_block_size Scenario.quiet 3 Scenario.ten_ms_timer
      PyFloat.c0_2 true Scenario.w0 = (Ret (1, cs), w') /\
    1 = 10 ^ Z.of_nat k /\
    map fst (timer_events (log w'))
    = map fst (timer_events (log Scenario.w0))
      ++ [0; 0; 0; 0; 0] ++ [1] ++ candidates (S k).
Proof.
  eexists. eexists.
  assert (H : _estimate_block_size Scenario.quiet 3 Scenario.ten_ms_timer
      PyFloat.c0_2 true Scenario.w0 = (Ret (1, _), _))
    by (vm_compute; reflexivity).
  destruct (estimate_calls_made nat _ _ _ _ _ _ _ _ _ H) as (k & Hk & Hlog).
  exists k. split; [exact H|]. split; [exact Hk | exact Hlog].
Defined.

(** X12, witness: the 10ms callable under [blocked_autorange]. *)
Lemma blocked_autorange_samples_are_blocks_witness :
  exists m w' cs w1,
    blocked_autorange Scenario.quiet 30 Scenario.ten_ms_timer
      (ext_callback None) PyFloat.c0_2 Scenario.w0 = (Ret m, w') /\
    _estimate_block_size Scenario.quiet 30 Scenario.ten_ms_timer
      PyFloat.c0_2 true Scenario.w0 = (Ret (number_per_run m, cs), w1) /\
    timer_events (log w')
    = timer_events (log w1)
      ++ map (fun t => (number_per_run m, Ret t)) (times m).
Proof.
  eexists. eexists.
  assert (H : blocked_autorange Scenario.quiet 30 Scenario.ten_ms_timer
      (ext_callback None) PyFloat.c0_2 Scenario.w0 = (Ret _, _))
    by (vm_compute; reflexivity).
  destruct (blocked_autorange_samples_are_blocks nat _ _ _ None _ _ _ _ H)
    as (cs & w1 & Hest & Hlog).
  exists cs, w1. split; [exact H|]. split; [exact Hest | exact Hlog].
Defined.

(** ** The estimation loop on zero durations *)

Section ZeroDurations.

Context {St : Type}.

Variable self : Timer St.
Variable min_run_time : float.
Variable check : bool.
Variable overhead uncached_time : float.

Let loop (fuel : nat) :=
  block_size_while fuel self min_run_time check overhead uncached_time.

Lemma log_set_torch_threads {A} n (body : M St A) (w : world St) :
  log (snd (set_torch_threads n body w))
  = log (snd (body {| ext := ext w; torch_threads := n; log := log w |})).
Proof. unfold set_torch_threads. destruct (body _). reflexivity. Qed.

(** The loop only adds to the list of calls made to the timed callable,
    and an iteration begins by calling it on the current candidate. *)
Lemma block_size_calls_extend fuel :
  forall number cs (w : world St),
  exists l,
    map fst (timer_events (log (snd (loop fuel number cs w))))
    = map fst (timer_events (log w)) ++ l.
Proof.
  induction fuel as [|fuel IH]; intros number cs w.
  - exists []. simpl. now rewrite app_nil_r.
  - destruct (_timer self number (ext w)) as [[t|e|] s] eqn:Ht.
    + unfold loop. rewrite (block_size_iteration _ _ _ _ _ _ _ _ _ _ _ Ht).
      assert (Hlog : map fst (timer_events
                                (log (logged w number (Ret t) s)))
                     = map fst (timer_events (log w)) ++ [number])
        by (simpl; rewrite timer_events_snoc, map_app; reflexivity).
      destruct (update_cache_speedup _ _ _ _ _) as [cs1| |];
        try (exists [number]; exact Hlog).
      destruct (_ || _); [exists [number]; exact Hlog|].
      destruct (IH (number * 10) cs1 (logged w number (Ret t) s))
        as [l Hl].
      unfold loop in Hl. rewrite Hl, Hlog, <- app_assoc. eauto.
    + unfold loop. simpl. unfold bind at 1.
      unfold timer_timeit at 1, call_ext at 1. rewrite Ht. simpl.
      exists [number]. rewrite timer_events_snoc, map_app. reflexivity.
    + unfold loop. simpl. unfold bind at 1.
      unfold timer_timeit at 1, call_ext at 1. rewrite Ht. simpl.
      exists [number]. rewrite timer_events_snoc, map_app. reflexivity.
Qed.

Lemma block_size_first_call fuel number cs (w : world St) :
  exists rest,
    map fst (timer_events (log (snd (loop (S fuel) number cs w))))
    = map fst (timer_events (log w)) ++ number :: rest.
Proof.
  destruct (_timer self number (ext w)) as [[t|e|] s] eqn:Ht.
  - unfold loop. rewrite (block_size_iteration _ _ _ _ _ _ _ _ _ _ _ Ht).
    assert (Hlog : map fst (timer_events
                              (log (logged w number (Ret t) s)))
                   = map fst (timer_events (log w)) ++ [number])
      by (simpl; rewrite timer_events_snoc, map_app; reflexivity).
    destruct (update_cache_speedup _ _ _ _ _) as [cs1| |];
      try (exists []; exact Hlog).
    destruct (_ || _); [exists []; exact Hlog|].
    destruct (block_size_calls_extend fuel (number * 10) cs1
                (logged w number (Ret t) s)) as [l Hl].
    unfold loop in Hl. rewrite Hl, Hlog, <- app_assoc. eauto.
  - unfold loop. simpl. unfold bind at 1.
    unfold timer_timeit at 1, call_ext at 1. rewrite Ht. simpl.
    exists []. rewrite timer_events_snoc, map_app. reflexivity.
  - unfold loop. simpl. unfold bind at 1.
    unfold timer_timeit at 1, call_ext at 1. rewrite Ht. simpl.
    exists []. rewrite timer_events_snoc, map_app. reflexivity.
Qed.

(** With cache-speedup checking off and a positive [min_run_time / 1000],
    zero durations end nothing: after [k] candidates timed at zero the
    loop is still running, and goes on to time the next one. *)
Lemma zero_durations_continue k :
  check = false ->
  PyFloat.lt PyFloat.zero (PrimFloat.div min_run_time PyFloat.thousand) = true ->
  PyFloat.lt min_run_time PyFloat.zero = false ->
  forall fuel number cs (w : world St) ts,
  loop_timings self k number (ext w) = Some ts ->
  Forall (fun t => PyFloat.eq t PyFloat.zero = true) ts ->
  ((fuel <= k)%nat -> fst (loop fuel number cs w) = Timeout) /\
  ((k < fuel)%nat ->
   exists rest,
     map fst (timer_events (log (snd (loop fuel number cs w))))
     = map fst (timer_events (log w))
       ++ map (fun j => number * 10 ^ Z.of_nat j) (seq 0 (S k)) ++ rest).
Proof.
  intros Hcheck Hpos Hmin.
  induction k as [|k IH]; intros fuel number cs w ts Hts Hzero.
  - split.
    + intros Hf. replace fuel with 0%nat by lia. reflexivity.
    + intros Hf. destruct fuel as [|fuel]; [lia|].
      destruct (block_size_first_call fuel number cs w) as [rest Hr].
      exists rest. rewrite Hr. simpl. rewrite Z.mul_1_r. reflexivity.
  - rewrite loop_timings_S in Hts.
    destruct (_timer self number (ext w)) as [[t| |] s] eqn:Ht;
      try discriminate.
    destruct (loop_timings self k (number * 10) s) as [ts'|] eqn:Hts';
      [|discriminate].
    injection Hts as <-.
    apply Forall_cons_iff in Hzero as [Hz Hzero].
    destruct fuel as [|fuel]; [split; [reflexivity | lia]|].
    unfold loop. rewrite (block_size_iteration _ _ _ _ _ _ _ _ _ _ _ Ht).
    replace (update_cache_speedup check uncached_time t number cs)
      with (@Ret float cs)
      by (unfold update_cache_speedup; rewrite Hcheck; reflexivity).
    rewrite (zero_duration_continues min_run_time overhead t Hz Hpos Hmin).
    destruct (IH fuel (number * 10) cs (logged w number (Ret t) s) ts'
                Hts' Hzero) as [Hout Hcalls].
    split.
    + intros Hf. apply Hout. lia.
    + intros Hf. destruct Hcalls as [rest Hr]; [lia|].
      exists rest. unfold loop in Hr. rewrite Hr. simpl log.
      rewrite timer_events_snoc, map_app, <- app_assoc. f_equal.
      rewrite (candidates_from_shift number (S k)). reflexivity.
Qed.

End ZeroDurations.

(** C2 (as amended).  The estimation loop has no guard against zero
    durations and enforces no bound of its own on the number of growth
    steps.  With cache-speedup checking on, as every public strategy calls
    it, a step at which the timed callable reports a zero duration raises
    [ZeroDivisionError] (for a candidate that converts to a float; in
    particular at the first step, [number = 1]).  With checking off and
    [min_run_time / 1000] positive, zero durations neither stop the loop nor
    make it fail: after any [k] candidates timed at zero it is still
    running and goes on to time the candidate [10^k]; and when
    [_estimate_block_size] then fails, the exception is the one the timed
    callable raised in the last call made to it, not a bound check of the
    estimator. *)
Theorem block_size_loop_has_no_guard_of_its_own :
  forall (St : Type) (collab : Collaborators St) (self : Timer St)
    (min_run_time : float),
  (forall overhead uncached_time fuel number cs (w : world St) t s f,
     _timer self number (ext w) = (Ret t, s) ->
     PyFloat.eq t PyFloat.zero = true ->
     PyFloat.of_int number = Ret f -> PyFloat.is_number f = true ->
     fst (block_size_while (S fuel) self min_run_time true overhead
            uncached_time number cs w) = Raise ZeroDivisionError)
  /\
  (forall fuel (w w1 : world St) ov un t s,
     block_size_prelude collab self true w = (Ret (ov, un), w1) ->
     _timer self 1 (ext w1) = (Ret t, s) ->
     PyFloat.eq t PyFloat.zero = true ->
     fst (_estimate_block_size collab (S fuel) self min_run_time true w)
     = Raise ZeroDivisionError)
  /\
  (forall (w w1 : world St) ov un k ts,
     block_size_prelude collab self false w = (Ret (ov, un), w1) ->
     PyFloat.lt PyFloat.zero (PrimFloat.div min_run_time PyFloat.thousand) = true ->
     PyFloat.lt min_run_time PyFloat.zero = false ->
     loop_timings self k 1 (ext w1) = Some ts ->
     Forall (fun t => PyFloat.eq t PyFloat.zero = true) ts ->
     (forall fuel, (fuel <= k)%nat ->
        fst (_estimate_block_size collab fuel self min_run_time false w)
        = Timeout) /\
     (forall fuel, (k < fuel)%nat ->
        exists rest,
          map fst (timer_events
                     (log (snd (_estimate_block_size collab fuel self
                                  min_run_time false w))))
          = map fst (timer_events (log w))
            ++ [0; 0; 0; 0; 0] ++ candidates (S k) ++ rest))
  /\
  (forall fuel (w w' : world St) e,
     _estimate_block_size collab fuel self min_run_time false w
     = (Raise e, w') ->
     exists n, last (log w') = Some (EvTimer n (Raise e))).
Proof.
  intros St collab self min_run_time. split; [|split; [|split]].
  - intros overhead uncached_time fuel number cs w t s f Ht Hz Hf Hn.
    erewrite block_size_iteration by exact Ht.
    erewrite zero_duration_faults by eassumption. reflexivity.
  - intros fuel w w1 ov un t s. apply faults_on_zero_first_timing.
  - intros w w1 ov un k ts Hp Hpos Hmin Hts Hzero. split; intros fuel Hf.
    + erewrite estimate_via_prelude by exact Hp.
      rewrite fst_set_torch_threads.
      now apply (zero_durations_continue self min_run_time false ov un k
                   eq_refl Hpos Hmin fuel 1 PyFloat.zero
                   {| ext := ext w1; torch_threads := _num_threads self;
                      log := log w1 |} ts Hts Hzero).
    + erewrite estimate_via_prelude by exact Hp.
      rewrite log_set_torch_threads.
      destruct (zero_durations_continue self min_run_time false ov un k
                  eq_refl Hpos Hmin fuel 1 PyFloat.zero
                  {| ext := ext w1; torch_threads := _num_threads self;
                     log := log w1 |} ts Hts Hzero) as [_ Hcalls].
      destruct (Hcalls Hf) as [rest Hr]. exists rest.
      rewrite Hr. change (log {| ext := ext w1;
                                 torch_threads := _num_threads self;
                                 log := log w1 |}) with (log w1).
      rewrite (prelude_log _ _ _ _ _ _ _ Hp), app_nil_r, <- app_assoc.
      do 2 f_equal. unfold candidates. f_equal.
      apply map_ext. intros j. lia.
  - intros fuel w w' e.
    unfold _estimate_block_size. unfold bind at 1.
    destruct (list_comprehension 5 _ w) as [[samples|e0|] w0] eqn:Hprobes.
    + unfold bind at 1. unfold ret at 1. intros H.
      apply set_torch_threads_inv in H as (w1 & H & _ & Hlog & _).
      apply block_size_check_off in H; [|reflexivity].
      rewrite Hlog. exact H.
    + intros [= <- <-]. exists 0. eapply overhead_probes_raise.
      exact Hprobes.
    + discriminate.
Qed.

(** C2, counterexample.  A timed callable too fast for the clock reports a
    zero duration at [number = 1], a repeat count [timeit] accepts.  The
    estimator, as the public strategies call it, then divides by zero:
    [_estimate_block_size] and [blocked_autorange] raise
    [ZeroDivisionError]. *)
Lemma block_size_loop_divides_by_zero :
  (1 <= Scenario2.sys_maxsize /\
   forall s, fst (_timer Scenario2.too_fast_timer 1 s) = Ret PyFloat.zero) /\
  fst (_estimate_block_size Scenario.quiet 50 Scenario2.too_fast_timer
         PyFloat.c0_2 true Scenario.w0) = Raise ZeroDivisionError /\
  fst (blocked_autorange Scenario.quiet 50 Scenario2.too_fast_timer None
         PyFloat.c0_2 Scenario.w0) = Raise ZeroDivisionError.
Proof.
  repeat split; try (vm_compute; reflexivity). vm_compute. discriminate.
Qed.

(** C2, witness: the too-fast callable with [timeit]'s limit on the repeat
    count.  With checking on the first step divides by zero; with checking
    off the nineteen candidates up to [10^18] are timed at zero, the loop
    goes on to [10^19], and what ends it there is the [OverflowError] of
    the timed callable. *)
Lemma block_size_loop_has_no_guard_of_its_own_witness :
  fst (_estimate_block_size Scenario.quiet 1 Scenario2.too_fast_timer
         PyFloat.c0_2 true Scenario.w0) = Raise ZeroDivisionError /\
  fst (_estimate_block_size Scenario.quiet 19 Scenario2.too_fast_timer
         PyFloat.c0_2 false Scenario.w0) = Timeout /\
  (exists rest,
     map fst (timer_events
                (log (snd (_estimate_block_size Scenario.quiet 25
                             Scenario2.too_fast_timer PyFloat.c0_2 false
                             Scenario.w0))))
     = map fst (timer_events (log Scenario.w0))
       ++ [0; 0; 0; 0; 0] ++ candidates 20 ++ rest) /\
  (exists w' n,
     _estimate_block_size Scenario.quiet 25 Scenario2.too_fast_timer
       PyFloat.c0_2 false Scenario.w0 = (Raise OverflowError, w') /\
     last (log w') = Some (EvTimer n (Raise OverflowError))).
Proof.
  pose proof (block_size_loop_has_no_guard_of_its_own nat Scenario.quiet
                Scenario2.too_fast_timer PyFloat.c0_2) as (_ & H2 & H3 & H4).
  split; [|split; [|split]].
  - eapply (H2 0%nat Scenario.w0); vm_compute; reflexivity.
  - eapply (proj1 (H3 Scenario.w0 _ _ _ 19%nat _ _ _ _ _ _)). lia.
  - eapply (proj2 (H3 Scenario.w0 _ _ _ 19%nat _ _ _ _ _ _)). lia.
  - eexists.
    assert (H : _estimate_block_size Scenario.quiet 25
                  Scenario2.too_fast_timer PyFloat.c0_2 false Scenario.w0
                = (Raise OverflowError, _)) by (vm_compute; reflexivity).
    destruct (H4 _ _ _ _ H) as [n Hn]. exists n. split; [exact H | exact Hn].
  Unshelve.
  all: try (vm_compute; reflexivity).
  all: repeat constructor.
Defined.
